(** * RealSenseCamera: a shallow embedding of [hardware/camera.py]

    The Python class [RealSenseCamera] wraps the RealSense driver
    ([pyrealsense2]) and numpy.  The class is embedded as state-passing
    functions over the object's attributes and an explicit world holding
    what the class can act on: the logger's records, the calls made to the
    driver, the pipeline objects and the memory of the arrays.  The driver
    is external: it is an oracle answering each call from the history of
    the calls made so far.  The script at the end of the file (connect, then
    plot forever) is a caller of the class and is not embedded. *)

From Stdlib Require Import ZArith String List Lia DecimalString.
From Stdlib Require Import Floats.SpecFloat.
From stdpp Require Import base list strings.

Local Open Scope Z_scope.

(** ** Floating point: IEEE 754 binary32, as numpy's [float32] *)

Module F32.

Definition prec : Z := 24.
Definition emax : Z := 128.

(** A Python [float] (binary64) cast to [float32], round to nearest even. *)
Definition of_f64 (x : spec_float) : spec_float :=
  match x with
  | S754_finite s m e => binary_round prec emax s m e
  | _ => x
  end.

(** An unsigned 16-bit sample converted to [float32] (always exact). *)
Definition of_u16 (n : Z) : spec_float := binary_normalize prec emax n 0 false.

Definition mul (x y : spec_float) : spec_float := SFmul prec emax x y.

End F32.

(** ** Python values of the class *)

(** [device_id] is whatever the caller passed; the class only ever applies
    [str] to it and compares it with [None].  Strings and integers are
    covered. *)
Inductive DeviceId :=
| IdStr (s : string)
| IdInt (n : Z).

(** Python's [str] on a device id. *)
Definition py_str (v : DeviceId) : string :=
  match v with
  | IdStr s => s
  | IdInt n => NilZero.string_of_int (Z.to_int n)
  end.

(** The dictionaries [{'serial': ..., 'name': ...}] of
    [get_available_devices]. *)
Record DeviceRecord := { serial : string; name : string }.

(** ** The driver (pyrealsense2) *)

Module Rs.

(** An attached device, with the two [camera_info] entries the class reads. *)
Record device := { info_serial_number : string; info_name : string }.

Inductive stream := depth | color.
Inductive format := z16 | rgb8.

Record stream_request :=
  { sr_stream : stream; sr_width : Z; sr_height : Z; sr_format : format;
    sr_fps : Z }.

(** An [rs.config] object: the requested device and the enabled streams, in
    the order of the calls. *)
Record config :=
  { cfg_device : option string; cfg_streams : list stream_request }.

Definition empty_config : config :=
  {| cfg_device := None; cfg_streams := [] |}.

Record intrinsics :=
  { in_width : Z; in_height : Z;
    in_ppx : spec_float; in_ppy : spec_float;
    in_fx : spec_float; in_fy : spec_float;
    in_model : nat; in_coeffs : list spec_float }.

(** What [pipeline.start] returns, reduced to the two values [connect]
    extracts from it: the intrinsics of the color stream profile and the
    depth scale of the first depth sensor (a Python float). *)
Record pipeline_profile :=
  { pp_color_intrinsics : intrinsics; pp_depth_scale : spec_float }.

(** A video frame: its size and its samples in row-major order. A depth
    frame ([z16]) holds one 16-bit sample per pixel, a color frame ([rgb8])
    three 8-bit samples per pixel. *)
Record video_frame :=
  { vf_height : nat; vf_width : nat; vf_data : list Z }.

(** A frameset of a pipeline with the depth and the color stream enabled,
    as [connect] configures it: one frame of each. *)
Record frameset :=
  { fs_depth : video_frame; fs_color : video_frame }.

(** Calls made to the driver (and to matplotlib, for the one call that shows
    a figure), as recorded in the world's history. *)
Inductive call :=
| QueryDevices
| PipelineNew (p : nat)
| ConfigNew
| EnableDevice (s : string)
| EnableStream (r : stream_request)
| PipelineStart (p : nat) (c : config)
| WaitForFrames (p : nat)
| AlignProcess
| PltShow.

(** The driver as an oracle: each answer is a function of the calls made
    before.  [inl msg] is a raised exception [e] with [str(e) = msg]. *)
Record driver :=
  { query_devices : list call -> list device;
    start : list call -> config -> string + pipeline_profile;
    wait_for_frames : list call -> string + frameset;
    align_process : frameset -> frameset }.

End Rs.

(** ** numpy arrays over an explicit memory *)

Module Np.

Inductive buffer :=
| BufU8 (l : list Z)
| BufU16 (l : list Z)
| BufF32 (l : list spec_float).

(** An [ndarray]: a shape over a buffer of the memory.  Two arrays with the
    same [base] share their data. *)
Record ndarray := { base : nat; shape : list nat }.

Definition alloc (m : list buffer) (b : buffer) : nat * list buffer :=
  (List.length m, m ++ [b]).

(** [np.asarray(buf, dtype=np.float32)] on 16-bit data: the dtype differs,
    so numpy converts into a new buffer. *)
Definition asarray_float32 (m : list buffer) (src : nat) (sh : list nat)
  : option (ndarray * list buffer) :=
  match m !! src with
  | Some (BufU16 l) =>
      let '(b, m') := alloc m (BufF32 (map F32.of_u16 l)) in
      Some ({| base := b; shape := sh |}, m')
  | _ => None
  end.

(** [a *= x] for a [float32] array and a Python float: in place, element by
    element, in [float32]. *)
Definition imul (m : list buffer) (a : ndarray) (x : spec_float)
  : option (list buffer) :=
  match m !! base a with
  | Some (BufF32 l) =>
      Some (<[base a := BufF32 (map (fun v => F32.mul v (F32.of_f64 x)) l)]> m)
  | _ => None
  end.

(** [np.asanyarray(buf)] with no dtype: an array over the buffer itself. *)
Definition asanyarray (src : nat) (sh : list nat) : ndarray :=
  {| base := src; shape := sh |}.

(** [np.expand_dims(a, axis)] for [0 <= axis]: a view with a dimension of
    size one inserted at [axis]; [None] is numpy's [AxisError]. *)
Definition expand_dims (a : ndarray) (axis : nat) : option ndarray :=
  if decide (axis <= List.length (shape a))%nat
  then Some {| base := base a;
               shape := take axis (shape a) ++ [1%nat] ++ drop axis (shape a) |}
  else None.

End Np.

(** ** Exceptions, log records, the object and the world *)

Inductive PyExn :=
| RuntimeError (msg : string)
| AttributeError (attr : string)
| TypeError
| AxisError.

Inductive Level := INFO | WARNING | ERROR.

(** One constructor per f-string handed to the logger, holding the values
    the f-string interpolates (source line in the comment). *)
Inductive LogMsg :=
| NoIdUsingFirst (id : DeviceId) (dev_name : string)          (* line 37 *)
| RequestedNotFound (id : DeviceId) (available : list string) (* line 42 *)
| UsingFirst (id : DeviceId) (dev_name : string)              (* line 44 *)
| Connected (id : option DeviceId)                            (* line 53 *)
| FailedToStart (e : string).                                 (* line 55 *)

Record LogRecord := { level : Level; msg : LogMsg }.

(** The attributes [__init__] creates. *)
Record Camera :=
  { device_id : option DeviceId;
    width : Z;
    height : Z;
    fps : Z;
    pipeline : option nat;
    scale : option spec_float;
    intrinsics : option Rs.intrinsics }.

(** What lies outside the object: the logger's records and the driver calls
    (oldest first), the pipeline objects created so far (the handle is the
    index, the flag says whether it was started), and the memory. *)
Record World :=
  { w_log : list LogRecord;
    w_calls : list Rs.call;
    w_pipes : list bool;
    w_mem : list Np.buffer }.

Definition empty_world : World :=
  {| w_log := []; w_calls := []; w_pipes := []; w_mem := [] |}.

(** The dictionary [get_image_bundle] returns. *)
Record Bundle := { rgb : Np.ndarray; aligned_depth : Np.ndarray }.

(** ** A state and exception monad for the methods *)

Inductive Res (A : Type) :=
| Ok (a : A)
| Raise (e : PyExn).
Arguments Ok {A} a.
Arguments Raise {A} e.

Definition M (A : Type) : Type := Camera -> World -> Res A * Camera * World.

Definition ret {A} (a : A) : M A := fun c w => (Ok a, c, w).

Definition raise {A} (e : PyExn) : M A := fun c w => (Raise e, c, w).

Definition bind {A B} (m : M A) (k : A -> M B) : M B :=
  fun c w =>
    match m c w with
    | (Ok a, c', w') => k a c' w'
    | (Raise e, c', w') => (Raise e, c', w')
    end.

Notation "'let!' x ':=' m 'in' k" := (bind m (fun x => k))
  (at level 10, x pattern, m at level 100, k at level 200).
Notation "m '>>' k" := (bind m (fun _ => k))
  (at level 100, k at level 200, right associativity).

Definition get_self : M Camera := fun c w => (Ok c, c, w).
Definition set_self (f : Camera -> Camera) : M unit := fun c w => (Ok tt, f c, w).
Definition get_world : M World := fun c w => (Ok w, c, w).
Definition set_world (f : World -> World) : M unit := fun c w => (Ok tt, c, f w).

(** Attribute assignments [self.x = v]. *)
Definition set_device_id (v : DeviceId) (c : Camera) : Camera :=
  {| device_id := Some v; width := width c; height := height c; fps := fps c;
     pipeline := pipeline c; scale := scale c; intrinsics := intrinsics c |}.
Definition set_pipeline (p : nat) (c : Camera) : Camera :=
  {| device_id := device_id c; width := width c; height := height c;
     fps := fps c; pipeline := Some p; scale := scale c;
     intrinsics := intrinsics c |}.
Definition set_intrinsics (i : Rs.intrinsics) (c : Camera) : Camera :=
  {| device_id := device_id c; width := width c; height := height c;
     fps := fps c; pipeline := pipeline c; scale := scale c;
     intrinsics := Some i |}.
Definition set_scale (x : spec_float) (c : Camera) : Camera :=
  {| device_id := device_id c; width := width c; height := height c;
     fps := fps c; pipeline := pipeline c; scale := Some x;
     intrinsics := intrinsics c |}.

Definition add_log (r : LogRecord) (w : World) : World :=
  {| w_log := w_log w ++ [r]; w_calls := w_calls w; w_pipes := w_pipes w;
     w_mem := w_mem w |}.
Definition add_call (k : Rs.call) (w : World) : World :=
  {| w_log := w_log w; w_calls := w_calls w ++ [k]; w_pipes := w_pipes w;
     w_mem := w_mem w |}.
Definition set_pipes (f : list bool -> list bool) (w : World) : World :=
  {| w_log := w_log w; w_calls := w_calls w; w_pipes := f (w_pipes w);
     w_mem := w_mem w |}.
Definition set_mem (m : list Np.buffer) (w : World) : World :=
  {| w_log := w_log w; w_calls := w_calls w; w_pipes := w_pipes w;
     w_mem := m |}.

Definition logger (l : Level) (m : LogMsg) : M unit :=
  set_world (add_log {| level := l; msg := m |}).

Definition record_call (k : Rs.call) : M unit := set_world (add_call k).

(** ** The methods of [RealSenseCamera] *)

(** [__init__], with its defaults [device_id=None, width=640, height=480,
    fps=30]. *)
Definition __init__ (device_id : option DeviceId) (width height fps : Z)
  : Camera :=
  {| device_id := device_id; width := width; height := height; fps := fps;
     pipeline := None; scale := None; intrinsics := None |}.

Definition default_camera : Camera := __init__ None 640 480 30.

(** [str(self.device_id)] and [{self.device_id}] in an f-string. *)
Definition str_device_id (v : option DeviceId) : string :=
  match v with
  | None => "None"
  | Some v => py_str v
  end.

Section Methods.

Variable drv : Rs.driver.

(** The loop of [get_available_devices], appending one dictionary per
    device. *)
Definition get_available_devices : M (list DeviceRecord) :=
  let! w := get_world in
  record_call Rs.QueryDevices >>
  let devices := Rs.query_devices drv (w_calls w) in
  ret (fold_left
         (fun available_devices device =>
            available_devices ++
              [{| serial := Rs.info_serial_number device;
                  name := Rs.info_name device |}])
         devices []).

(** [rs.pipeline()]: a new pipeline object, not started. *)
Definition rs_pipeline : M nat :=
  let! w := get_world in
  let p := List.length (w_pipes w) in
  set_world (set_pipes (fun l => l ++ [false])) >>
  record_call (Rs.PipelineNew p) >>
  ret p.

Definition rs_config : M Rs.config :=
  record_call Rs.ConfigNew >> ret Rs.empty_config.

Definition enable_device (c : Rs.config) (s : string) : M Rs.config :=
  record_call (Rs.EnableDevice s) >>
  ret {| Rs.cfg_device := Some s; Rs.cfg_streams := Rs.cfg_streams c |}.

Definition enable_stream (c : Rs.config) (st : Rs.stream) (w h : Z)
  (f : Rs.format) (r : Z) : M Rs.config :=
  let req := {| Rs.sr_stream := st; Rs.sr_width := w; Rs.sr_height := h;
                Rs.sr_format := f; Rs.sr_fps := r |} in
  record_call (Rs.EnableStream req) >>
  ret {| Rs.cfg_device := Rs.cfg_device c;
         Rs.cfg_streams := Rs.cfg_streams c ++ [req] |}.

(** [pipeline.start(config)]: the driver's answer; the pipeline is marked
    started when the driver accepts. *)
Definition pipeline_start (p : nat) (c : Rs.config)
  : M (string + Rs.pipeline_profile) :=
  let! w := get_world in
  record_call (Rs.PipelineStart p c) >>
  match Rs.start drv (w_calls w) c with
  | inl e => ret (inl e)
  | inr cfg => set_world (set_pipes (fun l => <[p := true]> l)) >> ret (inr cfg)
  end.

Definition connect : M unit :=
  let! available_devices := get_available_devices in
  match available_devices with
  | [] => raise (RuntimeError "No RealSense devices found")
  | dev0 :: _ =>
      let! self := get_self in
      match device_id self with
      | None =>
          set_self (set_device_id (IdStr (serial dev0))) >>
          logger INFO (NoIdUsingFirst (IdStr (serial dev0)) (name dev0))
      | Some id =>
          let device_serials := map serial available_devices in
          if decide (py_str id ∈ device_serials) then ret tt
          else
            logger WARNING (RequestedNotFound id device_serials) >>
            set_self (set_device_id (IdStr (serial dev0))) >>
            logger INFO (UsingFirst (IdStr (serial dev0)) (name dev0))
      end >>
      let! p := rs_pipeline in
      set_self (set_pipeline p) >>
      let! config := rs_config in
      let! self := get_self in
      let! config := enable_device config (str_device_id (device_id self)) in
      let! config := enable_stream config Rs.depth (width self) (height self)
                       Rs.z16 (fps self) in
      let! config := enable_stream config Rs.color (width self) (height self)
                       Rs.rgb8 (fps self) in
      let! started := pipeline_start p config in
      match started with
      | inl e =>
          logger ERROR (FailedToStart e) >>
          raise (RuntimeError
                   ("Could not connect to camera " ++
                    str_device_id (device_id self) ++ ": " ++ e))
      | inr cfg =>
          logger INFO (Connected (device_id self)) >>
          set_self (set_intrinsics (Rs.pp_color_intrinsics cfg)) >>
          set_self (set_scale (Rs.pp_depth_scale cfg))
      end
  end.

(** [pipeline.wait_for_frames()]: the driver refuses a pipeline that was
    not started, and otherwise delivers a frameset or times out. *)
Definition pipeline_wait_for_frames (p : nat) : M Rs.frameset :=
  let! w := get_world in
  record_call (Rs.WaitForFrames p) >>
  match w_pipes w !! p with
  | Some true =>
      match Rs.wait_for_frames drv (w_calls w) with
      | inl e => raise (RuntimeError e)
      | inr frames => ret frames
      end
  | _ => raise (RuntimeError "wait_for_frames cannot be called before start()")
  end.

(** A frame's [get_data()]: the buffer in memory and its shape. *)
Record BufData := { bd_loc : nat; bd_shape : list nat }.

(** [rs.align(rs.stream.color).process(frames)], then the color frame and the
    depth frame of the result, whose samples the driver holds in memory. *)
Definition align_process (frames : Rs.frameset) : M (BufData * BufData) :=
  record_call Rs.AlignProcess >>
  let aligned_frames := Rs.align_process drv frames in
  let color_frame := Rs.fs_color aligned_frames in
  let aligned_depth_frame := Rs.fs_depth aligned_frames in
  let! w := get_world in
  let '(lc, m) := Np.alloc (w_mem w) (Np.BufU8 (Rs.vf_data color_frame)) in
  let '(ld, m) := Np.alloc m (Np.BufU16 (Rs.vf_data aligned_depth_frame)) in
  set_world (set_mem m) >>
  ret ({| bd_loc := lc;
          bd_shape := [Rs.vf_height color_frame; Rs.vf_width color_frame;
                       3%nat] |},
       {| bd_loc := ld;
          bd_shape := [Rs.vf_height aligned_depth_frame;
                       Rs.vf_width aligned_depth_frame] |}).

Definition np_asarray_float32 (b : BufData) : M Np.ndarray :=
  let! w := get_world in
  match Np.asarray_float32 (w_mem w) (bd_loc b) (bd_shape b) with
  | Some (a, m) => set_world (set_mem m) >> ret a
  | None => raise TypeError
  end.

Definition np_imul (a : Np.ndarray) (x : option spec_float) : M unit :=
  let! w := get_world in
  match x with
  | Some x =>
      match Np.imul (w_mem w) a x with
      | Some m => set_world (set_mem m)
      | None => raise TypeError
      end
  | None => raise TypeError
  end.

Definition np_expand_dims (a : Np.ndarray) (axis : nat) : M Np.ndarray :=
  match Np.expand_dims a axis with
  | Some a' => ret a'
  | None => raise AxisError
  end.

Definition get_image_bundle : M Bundle :=
  let! self := get_self in
  match pipeline self with
  | None => raise (AttributeError "wait_for_frames")
  | Some p =>
      let! frames := pipeline_wait_for_frames p in
      let! (color_data, depth_data) := align_process frames in
      let! depth_image := np_asarray_float32 depth_data in
      np_imul depth_image (scale self) >>
      let color_image := Np.asanyarray (bd_loc color_data) (bd_shape color_data) in
      let! depth_image := np_expand_dims depth_image 2 in
      ret {| rgb := color_image; aligned_depth := depth_image |}
  end.

(** [plot_image_bundle]: one acquisition, then the figure is shown. *)
Definition plot_image_bundle : M unit :=
  let! images := get_image_bundle in
  record_call Rs.PltShow >>
  ret tt.

End Methods.

(** The public methods as values, so that statements can range over the
    operations of the class. *)
Inductive Method :=
| GetAvailableDevices
| Connect
| GetImageBundle
| PlotImageBundle.

#[global] Instance Method_eq_dec : EqDecision Method.
Proof. solve_decision. Defined.

(** A method call whose returned value the caller drops. *)
Definition call_method (drv : Rs.driver) (m : Method) : M unit :=
  match m with
  | GetAvailableDevices => get_available_devices drv >> ret tt
  | Connect => connect drv
  | GetImageBundle => get_image_bundle drv >> ret tt
  | PlotImageBundle => plot_image_bundle drv
  end.

(** A caller running methods one after the other, going on after an
    exception; the outcomes are collected in order. *)
Fixpoint run_methods (drv : Rs.driver) (ms : list Method) (c : Camera)
  (w : World) : list (Res unit) * Camera * World :=
  match ms with
  | [] => ([], c, w)
  | m :: ms' =>
      let '(r, c', w') := call_method drv m c w in
      let '(rs, c'', w'') := run_methods drv ms' c' w' in
      (r :: rs, c'', w'')
  end.

(** Whether some [connect] of the run returned normally. *)
Fixpoint connected_in (ms : list Method) (rs : list (Res unit)) : bool :=
  match ms, rs with
  | Connect :: _, Ok _ :: _ => true
  | _ :: ms', _ :: rs' => connected_in ms' rs'
  | _, _ => false
  end.

(** The attributes [__init__] sets on the object, and the functions the
    class body defines, each as what calling it with no argument does. *)
Definition attribute_names : list string :=
  ["device_id"; "width"; "height"; "fps"; "pipeline"; "scale"; "intrinsics"].

Definition class_dict (drv : Rs.driver) : list (string * M unit) :=
  [("__init__", set_self (fun _ => default_camera));
   ("get_available_devices", call_method drv GetAvailableDevices);
   ("connect", call_method drv Connect);
   ("get_image_bundle", call_method drv GetImageBundle);
   ("plot_image_bundle", call_method drv PlotImageBundle)].

Fixpoint assoc {A} (k : string) (l : list (string * A)) : option A :=
  match l with
  | [] => None
  | (k', v) :: l' => if decide (k = k') then Some v else assoc k l'
  end.

(** [cam.<attr>()]: the object's own attributes are looked up first and hold
    values that are not callable ([TypeError]); then the class, whose
    functions run; any other name is not found ([AttributeError]).  Names
    inherited from [object] are left out. *)
Definition invoke (drv : Rs.driver) (attr : string) : M unit :=
  if decide (attr ∈ attribute_names) then raise TypeError
  else
    match assoc attr (class_dict drv) with
    | Some method => method
    | None => raise (AttributeError attr)
    end.

(** ** Descriptions used in the statements *)

#[global] Instance Level_eq_dec : EqDecision Level.
Proof. solve_decision. Defined.

(** The records of a given level among [l]. *)
Definition at_level (v : Level) (l : list LogRecord) : list LogRecord :=
  filter (fun r => level r = v) l.

Definition to_record (d : Rs.device) : DeviceRecord :=
  {| serial := Rs.info_serial_number d; name := Rs.info_name d |}.

(** The stream request [connect] makes for a stream; the configuration it
    hands to [pipeline.start] when bound to serial [s]; and the driver calls
    it makes before [pipeline.start], [p] being the new pipeline. *)
Definition request (c : Camera) (st : Rs.stream) (f : Rs.format)
  : Rs.stream_request :=
  {| Rs.sr_stream := st; Rs.sr_width := width c; Rs.sr_height := height c;
     Rs.sr_format := f; Rs.sr_fps := fps c |}.

Definition connect_config (c : Camera) (s : string) : Rs.config :=
  {| Rs.cfg_device := Some s;
     Rs.cfg_streams := [request c Rs.depth Rs.z16; request c Rs.color Rs.rgb8] |}.

Definition connect_calls (c : Camera) (p : nat) (s : string) : list Rs.call :=
  [Rs.QueryDevices; Rs.PipelineNew p; Rs.ConfigNew; Rs.EnableDevice s;
   Rs.EnableStream (request c Rs.depth Rs.z16);
   Rs.EnableStream (request c Rs.color Rs.rgb8)].

(** Lines 34-44 as a function: the device id [connect] goes on with and the
    records it logs, for the enumerated [devs] whose first entry is [dev0]. *)
Definition select_device (id : option DeviceId) (devs : list DeviceRecord)
  (dev0 : DeviceRecord) : DeviceId * list LogRecord :=
  match id with
  | None =>
      (IdStr (serial dev0),
       [{| level := INFO;
           msg := NoIdUsingFirst (IdStr (serial dev0)) (name dev0) |}])
  | Some id =>
      if decide (py_str id ∈ map serial devs) then (id, [])
      else
        (IdStr (serial dev0),
         [{| level := WARNING; msg := RequestedNotFound id (map serial devs) |};
          {| level := INFO;
             msg := UsingFirst (IdStr (serial dev0)) (name dev0) |}])
  end.

(** The object and the world after [connect] went through selection and
    [pipeline.start] answered [r]. *)
Definition connect_result (c : Camera) (w : World) (id : DeviceId)
  (logs : list LogRecord) (r : string + Rs.pipeline_profile)
  : Res unit * Camera * World :=
  let p := List.length (w_pipes w) in
  let s := py_str id in
  let calls := w_calls w ++ connect_calls c p s ++
               [Rs.PipelineStart p (connect_config c s)] in
  match r with
  | inl e =>
      (Raise (RuntimeError ("Could not connect to camera " +:+ s +:+ ": " +:+ e)),
       set_pipeline p (set_device_id id c),
       {| w_log := w_log w ++ logs ++
                   [{| level := ERROR; msg := FailedToStart e |}];
          w_calls := calls;
          w_pipes := w_pipes w ++ [false];
          w_mem := w_mem w |})
  | inr cfg =>
      (Ok tt,
       set_scale (Rs.pp_depth_scale cfg)
         (set_intrinsics (Rs.pp_color_intrinsics cfg)
            (set_pipeline p (set_device_id id c))),
       {| w_log := w_log w ++ logs ++
                   [{| level := INFO; msg := Connected (Some id) |}];
          w_calls := calls;
          w_pipes := w_pipes w ++ [true];
          w_mem := w_mem w |})
  end.

(** Depth samples converted to [float32] and multiplied once by the Python
    float [x]. *)
Definition scaled_once (x : spec_float) (raw : list Z) : list spec_float :=
  map (fun v => F32.mul (F32.of_u16 v) (F32.of_f64 x)) raw.

(** The driver's side of alignment to the color stream: the depth frame of an
    aligned frameset lies on the pixel grid of its color frame. *)
Definition aligned_to_color (fs : Rs.frameset) : Prop :=
  Rs.vf_height (Rs.fs_depth fs) = Rs.vf_height (Rs.fs_color fs) /\
  Rs.vf_width (Rs.fs_depth fs) = Rs.vf_width (Rs.fs_color fs).

(** The object holds no pipeline, or one that was never started. *)
Definition unstarted (c : Camera) (w : World) : Prop :=
  match pipeline c with
  | None => True
  | Some p => w_pipes w !! p = Some false
  end.

(** The value of [device_id] after [connect], for the enumerated [devs]. *)
Definition device_id_after_connect (id : option DeviceId)
  (devs : list Rs.device) : option DeviceId :=
  match devs with
  | [] => id
  | dev0 :: _ =>
      match id with
      | None => Some (IdStr (Rs.info_serial_number dev0))
      | Some v =>
          if decide (py_str v ∈ map Rs.info_serial_number devs) then Some v
          else Some (IdStr (Rs.info_serial_number dev0))
      end
  end.

(** ** Concrete drivers and frames for the examples *)

Module Example.

Definition d405 : Rs.device :=
  {| Rs.info_serial_number := "111"; Rs.info_name := "D405" |}.
Definition d435 : Rs.device :=
  {| Rs.info_serial_number := "222"; Rs.info_name := "D435" |}.

(** The binary64 number nearest to 0.001. *)
Definition f64_0_001 : spec_float :=
  S754_finite false 4611686018427388 (-62).

(** 2.0 in binary32. *)
Definition f32_2_0 : spec_float := S754_finite false 8388608 (-22).

Definition some_intrinsics : Rs.intrinsics :=
  {| Rs.in_width := 640; Rs.in_height := 480;
     Rs.in_ppx := S754_zero false; Rs.in_ppy := S754_zero false;
     Rs.in_fx := S754_zero false; Rs.in_fy := S754_zero false;
     Rs.in_model := 0%nat; Rs.in_coeffs := [] |}.

Definition profile : Rs.pipeline_profile :=
  {| Rs.pp_color_intrinsics := some_intrinsics;
     Rs.pp_depth_scale := f64_0_001 |}.

(** A frameset of one row and two pixels, already on a common grid. *)
Definition frames : Rs.frameset :=
  {| Rs.fs_depth :=
       {| Rs.vf_height := 1; Rs.vf_width := 2; Rs.vf_data := [2000; 0] |};
     Rs.fs_color :=
       {| Rs.vf_height := 1; Rs.vf_width := 2;
          Rs.vf_data := [10; 20; 30; 40; 50; 60] |} |}.

(** A driver with the devices [devs] attached that starts any pipeline and
    delivers [frames] on every wait. *)
Definition driver_with (devs : list Rs.device) : Rs.driver :=
  {| Rs.query_devices := fun _ => devs;
     Rs.start := fun _ _ => inr profile;
     Rs.wait_for_frames := fun _ => inr frames;
     Rs.align_process := fun fs => fs |}.

(** A driver that refuses to start every pipeline. *)
Definition driver_busy (devs : list Rs.device) : Rs.driver :=
  {| Rs.query_devices := fun _ => devs;
     Rs.start := fun _ _ => inl "Device or resource busy"%string;
     Rs.wait_for_frames := fun _ => inr frames;
     Rs.align_process := fun fs => fs |}.

(** The object and the world after a first successful [connect] to the one
    attached device. *)
Definition drv1 : Rs.driver := driver_with [d405].
Definition cam1 : Camera := snd (fst (connect drv1 default_camera empty_world)).
Definition world1 : World := snd (connect drv1 default_camera empty_world).

(** A driver whose first wait for frames times out and whose later waits
    deliver [frames]; and one whose every wait times out. *)
Definition is_wait (k : Rs.call) : bool :=
  match k with
  | Rs.WaitForFrames _ => true
  | _ => false
  end.

Definition driver_flaky (devs : list Rs.device) : Rs.driver :=
  {| Rs.query_devices := fun _ => devs;
     Rs.start := fun _ _ => inr profile;
     Rs.wait_for_frames := fun hist =>
       if existsb is_wait hist then inr frames
       else inl "Frame didn't arrive within 15000"%string;
     Rs.align_process := fun fs => fs |}.

Definition driver_timeout (devs : list Rs.device) : Rs.driver :=
  {| Rs.query_devices := fun _ => devs;
     Rs.start := fun _ _ => inr profile;
     Rs.wait_for_frames := fun _ =>
       inl "Frame didn't arrive within 15000"%string;
     Rs.align_process := fun fs => fs |}.

(** The first bundle acquired after [cam1] connected. *)
Definition bundle1 : Bundle :=
  {| rgb := {| Np.base := 0; Np.shape := [1; 2; 3]%nat |};
     aligned_depth := {| Np.base := 2; Np.shape := [1; 2; 1]%nat |} |}.

End Example.

(** ** The rest of the file: the plotting step and the script *)

Module NpMore.

(** [a.squeeze(axis=k)] for [0 <= k]: a view without dimension [k], which
    must have size one; [None] is numpy's error ([ValueError] when the
    dimension is larger, [AxisError] when there is no such dimension). *)
Definition squeeze (a : Np.ndarray) (axis : nat) : option Np.ndarray :=
  match Np.shape a !! axis with
  | Some 1%nat =>
      Some {| Np.base := Np.base a;
              Np.shape := take axis (Np.shape a) ++ drop (S axis) (Np.shape a) |}
  | _ => None
  end.

End NpMore.

(** The integer a [float32] stands for, when it stands for one. *)
Definition f32_to_Z (x : spec_float) : option Z :=
  match x with
  | S754_zero _ => Some 0
  | S754_finite s m (Zneg e) =>
      if Z.eqb (Z.pos m mod 2 ^ Z.pos e) 0
      then Some (cond_Zopp s (Z.pos m / 2 ^ Z.pos e))
      else None
  | S754_finite s m e => Some (cond_Zopp s (Z.pos m * 2 ^ e))
  | _ => None
  end.

(** Whether [P] holds of every number whose binary writing is that of [acc]
    followed by [bits] more bits. *)
Fixpoint all_bits (bits : nat) (acc : Z) (P : Z -> bool) : bool :=
  match bits with
  | O => P acc
  | S b => all_bits b (2 * acc) P && all_bits b (2 * acc + 1) P
  end.

(** Whether a float is a zero or a finite number. *)
Definition is_finite (x : spec_float) : bool :=
  match x with
  | S754_zero _ | S754_finite _ _ _ => true
  | _ => false
  end.

Definition sign_of (x : spec_float) : bool :=
  match x with
  | S754_zero s | S754_infinity s | S754_finite s _ _ => s
  | S754_nan => false
  end.

(** The loop [while True: cam.plot_image_bundle()], cut after [fuel]
    iterations.  The loop has no exit of its own: [Ok] means that the fuel
    ran out with the loop still running, [Raise] that an uncaught exception
    ended it. *)
Fixpoint plot_forever (drv : Rs.driver) (fuel : nat) : M unit :=
  match fuel with
  | O => ret tt
  | S fuel' => plot_image_bundle drv >> plot_forever drv fuel'
  end.

(** The script under [if __name__ == '__main__']: a camera with the default
    arguments, [connect], then the loop. *)
Definition main (drv : Rs.driver) (fuel : nat) (w : World)
  : Res unit * Camera * World :=
  (connect drv >> plot_forever drv fuel) default_camera w.


(** ** Reasoning about the monad and the primitives *)

Create HintDb monad_ops.
#[local] Hint Unfold bind ret raise get_self set_self get_world set_world
  logger record_call rs_pipeline rs_config enable_device enable_stream
  pipeline_start pipeline_wait_for_frames align_process np_asarray_float32
  np_imul np_expand_dims : monad_ops.

Ltac run_monad := autounfold with monad_ops; cbn beta iota.

(** Closes a decidable closed goal by evaluation. *)
Ltac by_decide :=
  match goal with
  | |- ?P => apply (bool_decide_unpack P); vm_compute; exact I
  end.

Lemma bind_ok {A B} (m : M A) (k : A -> M B) c w a c' w' :
  m c w = (Ok a, c', w') -> bind m k c w = k a c' w'.
Proof. intros H. unfold bind. now rewrite H. Qed.

Lemma bind_raise {A B} (m : M A) (k : A -> M B) c w e c' w' :
  m c w = (Raise e, c', w') -> bind m k c w = (Raise e, c', w').
Proof. intros H. unfold bind. now rewrite H. Qed.

Lemma lookup_snoc {A} (l : list A) (x : A) :
  (l ++ [x]) !! List.length l = Some x.
Proof. now apply list_lookup_middle. Qed.

Lemma insert_snoc {A} (l : list A) (x y : A) :
  <[List.length l := y]> (l ++ [x]) = l ++ [y].
Proof.
  induction l as [|a l IH]; simpl; [reflexivity|]. now rewrite IH.
Qed.

Lemma world_ext (a b : World) :
  w_log a = w_log b -> w_calls a = w_calls b -> w_pipes a = w_pipes b ->
  w_mem a = w_mem b -> a = b.
Proof. destruct a, b; cbn; intros; subst; reflexivity. Qed.

Lemma outcome_ext {A} (r r' : Res A) (c c' : Camera) (w w' : World) :
  r = r' -> c = c' -> w = w' -> (r, c, w) = (r', c', w').
Proof. intros; subst; reflexivity. Qed.

Ltac world_eq :=
  apply world_ext;
  cbn [w_log w_calls w_pipes w_mem add_log add_call set_pipes set_mem];
  rewrite <- ?app_assoc; rewrite ?insert_snoc; reflexivity.

Lemma fold_left_snoc_map {A B} (f : A -> B) (l : list A) (acc : list B) :
  fold_left (fun acc x => acc ++ [f x]) l acc = acc ++ map f l.
Proof.
  revert acc; induction l as [|x l IH]; intros acc; simpl.
  - now rewrite app_nil_r.
  - rewrite IH, <- app_assoc. reflexivity.
Qed.

Lemma serials_of_records (devs : list Rs.device) :
  map serial (map to_record devs) = map Rs.info_serial_number devs.
Proof. rewrite map_map. reflexivity. Qed.

Lemma at_level_app v l1 l2 :
  at_level v (l1 ++ l2) = at_level v l1 ++ at_level v l2.
Proof. unfold at_level. apply filter_app. Qed.

Lemma at_level_other v l : level l <> v -> at_level v [l] = [].
Proof.
  intros H. unfold at_level. cbn. unfold filter. cbn.
  destruct (decide (level l = v)); [contradiction|reflexivity].
Qed.

(** ** [get_available_devices] and [connect] in closed form *)

Lemma get_available_devices_eq drv c w :
  get_available_devices drv c w =
    (Ok (map to_record (Rs.query_devices drv (w_calls w))), c,
     add_call Rs.QueryDevices w).
Proof.
  unfold get_available_devices. run_monad.
  rewrite (fold_left_snoc_map to_record). reflexivity.
Qed.

Lemma connect_empty drv c w :
  Rs.query_devices drv (w_calls w) = [] ->
  connect drv c w =
    (Raise (RuntimeError "No RealSense devices found"), c,
     add_call Rs.QueryDevices w).
Proof.
  intros Hq. unfold connect. unfold bind at 1.
  rewrite get_available_devices_eq, Hq. reflexivity.
Qed.

Lemma connect_nonempty drv c w dev0 rest :
  Rs.query_devices drv (w_calls w) = dev0 :: rest ->
  let sel := select_device (device_id c) (map to_record (dev0 :: rest))
               (to_record dev0) in
  let p := List.length (w_pipes w) in
  connect drv c w =
    connect_result c w (fst sel) (snd sel)
      (Rs.start drv (w_calls w ++ connect_calls c p (py_str (fst sel)))
         (connect_config c (py_str (fst sel)))).
Proof.
  intros Hq sel p. subst sel p.
  unfold connect. unfold bind at 1.
  rewrite get_available_devices_eq, Hq. cbn [map].
  cbv beta iota. run_monad.
  unfold select_device, connect_result, connect_calls, connect_config, request.
  destruct (device_id c) as [id|] eqn:Hid.
  - destruct (decide (py_str id ∈ _)) as [Hin|Hin]; cbn [fst snd].
    + cbn. rewrite Hid. cbn.
      destruct (Rs.start drv _ _) eqn:E; rewrite <- !app_assoc in E; cbn in E;
        rewrite E;
        (apply outcome_ext; [reflexivity| |world_eq]);
        destruct c; cbn in *; subst; reflexivity.
    + cbn.
      destruct (Rs.start drv _ _) eqn:E; rewrite <- !app_assoc in E; cbn in E;
        rewrite E; (apply outcome_ext; [reflexivity|reflexivity|world_eq]).
  - cbn.
    destruct (Rs.start drv _ _) eqn:E; rewrite <- !app_assoc in E; cbn in E;
      rewrite E; (apply outcome_ext; [reflexivity|reflexivity|world_eq]).
Qed.

Lemma connect_result_calls c w id logs r :
  w_calls (snd (connect_result c w id logs r)) =
    w_calls w ++ connect_calls c (List.length (w_pipes w)) (py_str id) ++
      [Rs.PipelineStart (List.length (w_pipes w)) (connect_config c (py_str id))].
Proof. destruct r; reflexivity. Qed.

Lemma connect_result_device_id c w id logs r :
  device_id (snd (fst (connect_result c w id logs r))) = Some id.
Proof. destruct r; reflexivity. Qed.

Lemma connect_result_log c w id logs r :
  exists l, w_log (snd (connect_result c w id logs r)) = w_log w ++ logs ++ [l]
            /\ level l <> WARNING.
Proof.
  destruct r; cbn; eexists; (split; [reflexivity|]); cbn; discriminate.
Qed.

Lemma connect_result_outcome c w id logs r :
  fst (fst (connect_result c w id logs r)) =
    match r with
    | inl e => Raise (RuntimeError ("Could not connect to camera " +:+
                                    py_str id +:+ ": " +:+ e))
    | inr _ => Ok tt
    end.
Proof. destruct r; reflexivity. Qed.

(** ** [get_image_bundle] in closed form, and what the methods leave alone *)

Lemma asarray_float32_snoc m l sh :
  Np.asarray_float32 (m ++ [Np.BufU16 l]) (List.length m) sh =
    Some ({| Np.base := S (List.length m); Np.shape := sh |},
          m ++ [Np.BufU16 l; Np.BufF32 (map F32.of_u16 l)]).
Proof.
  unfold Np.asarray_float32, Np.alloc. rewrite lookup_snoc.
  rewrite length_app, <- app_assoc. cbn. now rewrite Nat.add_1_r.
Qed.

Lemma imul_snoc m l sh x :
  Np.imul (m ++ [Np.BufF32 l]) {| Np.base := List.length m; Np.shape := sh |} x =
    Some (m ++ [Np.BufF32 (map (fun v => F32.mul v (F32.of_f64 x)) l)]).
Proof.
  unfold Np.imul. cbn [Np.base]. now rewrite lookup_snoc, insert_snoc.
Qed.

Lemma wait_for_frames_ok drv p c w fs :
  w_pipes w !! p = Some true ->
  Rs.wait_for_frames drv (w_calls w) = inr fs ->
  pipeline_wait_for_frames drv p c w = (Ok fs, c, add_call (Rs.WaitForFrames p) w).
Proof.
  intros Hs Hf. unfold pipeline_wait_for_frames. run_monad. cbn.
  now rewrite Hs, Hf.
Qed.

Lemma wait_for_frames_timeout drv p c w e :
  w_pipes w !! p = Some true ->
  Rs.wait_for_frames drv (w_calls w) = inl e ->
  pipeline_wait_for_frames drv p c w =
    (Raise (RuntimeError e), c, add_call (Rs.WaitForFrames p) w).
Proof.
  intros Hs Hf. unfold pipeline_wait_for_frames. run_monad. cbn.
  now rewrite Hs, Hf.
Qed.

Lemma wait_for_frames_unstarted drv p c w :
  w_pipes w !! p <> Some true ->
  pipeline_wait_for_frames drv p c w =
    (Raise (RuntimeError "wait_for_frames cannot be called before start()"), c,
     add_call (Rs.WaitForFrames p) w).
Proof.
  intros Hs. unfold pipeline_wait_for_frames. run_monad. cbn.
  destruct (w_pipes w !! p) as [[|]|]; [contradiction|reflexivity..].
Qed.

Lemma align_process_eq drv fs c w :
  let al := Rs.align_process drv fs in
  let n := List.length (w_mem w) in
  align_process drv fs c w =
    (Ok ({| bd_loc := n;
            bd_shape := [Rs.vf_height (Rs.fs_color al);
                         Rs.vf_width (Rs.fs_color al); 3%nat] |},
         {| bd_loc := S n;
            bd_shape := [Rs.vf_height (Rs.fs_depth al);
                         Rs.vf_width (Rs.fs_depth al)] |}),
     c,
     set_mem ((w_mem w ++ [Np.BufU8 (Rs.vf_data (Rs.fs_color al))]) ++
              [Np.BufU16 (Rs.vf_data (Rs.fs_depth al))])
       (add_call Rs.AlignProcess w)).
Proof.
  intros al n. unfold align_process. run_monad. unfold Np.alloc. cbn.
  rewrite length_app, Nat.add_1_r. reflexivity.
Qed.

Lemma np_asarray_float32_ok b c w m l :
  w_mem w = m ++ [Np.BufU16 l] ->
  bd_loc b = List.length m ->
  np_asarray_float32 b c w =
    (Ok {| Np.base := S (List.length m); Np.shape := bd_shape b |}, c,
     set_mem ((m ++ [Np.BufU16 l]) ++ [Np.BufF32 (map F32.of_u16 l)]) w).
Proof.
  intros Hm Hb. unfold np_asarray_float32. run_monad.
  rewrite Hm, Hb, asarray_float32_snoc.
  change [?a; ?b] with ([a] ++ [b]). now rewrite app_assoc.
Qed.

Lemma np_imul_ok a x c w m l :
  w_mem w = m ++ [Np.BufF32 l] ->
  Np.base a = List.length m ->
  np_imul a (Some x) c w =
    (Ok tt, c,
     set_mem (m ++ [Np.BufF32 (map (fun v => F32.mul v (F32.of_f64 x)) l)]) w).
Proof.
  intros Hm Hb. unfold np_imul. run_monad. destruct a as [ba sh].
  cbn [Np.base] in Hb. subst ba. now rewrite Hm, imul_snoc.
Qed.

(** The acquisition up to the in-place multiplication. *)
Lemma get_image_bundle_started drv c w p fs :
  pipeline c = Some p ->
  w_pipes w !! p = Some true ->
  Rs.wait_for_frames drv (w_calls w) = inr fs ->
  let al := Rs.align_process drv fs in
  let n := List.length (w_mem w) in
  let w' x :=
    {| w_log := w_log w;
        w_calls := w_calls w ++ [Rs.WaitForFrames p; Rs.AlignProcess];
        w_pipes := w_pipes w;
        w_mem := w_mem w ++
                 [Np.BufU8 (Rs.vf_data (Rs.fs_color al));
                  Np.BufU16 (Rs.vf_data (Rs.fs_depth al));
                  Np.BufF32 x] |} in
  get_image_bundle drv c w =
    match scale c with
    | Some x =>
    (Ok {| rgb := {| Np.base := n;
                     Np.shape := [Rs.vf_height (Rs.fs_color al);
                                  Rs.vf_width (Rs.fs_color al); 3%nat] |};
           aligned_depth :=
             {| Np.base := S (S n);
                Np.shape := [Rs.vf_height (Rs.fs_depth al);
                             Rs.vf_width (Rs.fs_depth al); 1%nat] |} |},
     c, w' (scaled_once x (Rs.vf_data (Rs.fs_depth al))))
    | None => (Raise TypeError, c, w' (map F32.of_u16 (Rs.vf_data (Rs.fs_depth al))))
    end.
Proof.
  intros Hp Hs Hf al n w'.
  unfold get_image_bundle. unfold bind at 1, get_self at 1. rewrite Hp.
  rewrite (bind_ok _ _ _ _ _ _ _ (wait_for_frames_ok drv p c w fs Hs Hf)).
  rewrite (bind_ok _ _ _ _ _ _ _ (align_process_eq drv fs c _)).
  fold al. cbn [w_mem add_call]. fold n.
  erewrite bind_ok; cycle 1.
  { apply np_asarray_float32_ok with (l := Rs.vf_data (Rs.fs_depth al))
      (m := w_mem w ++ [Np.BufU8 (Rs.vf_data (Rs.fs_color al))]).
    - reflexivity.
    - cbn. rewrite length_app, Nat.add_1_r. reflexivity. }
  destruct (scale c) as [x|].
  - erewrite bind_ok; cycle 1.
    { apply np_imul_ok with (l := map F32.of_u16 (Rs.vf_data (Rs.fs_depth al))).
      - reflexivity.
      - cbn. rewrite (length_app _ [Np.BufU16 _]), Nat.add_1_r. reflexivity. }
    unfold np_expand_dims, Np.expand_dims. run_monad. cbn.
    rewrite !length_app. cbn. rewrite !Nat.add_1_r. fold n.
    unfold Np.asanyarray, scaled_once, w'.
    apply outcome_ext; [reflexivity|reflexivity|].
    apply world_ext; cbn [w_log w_calls w_pipes w_mem add_log add_call set_pipes set_mem];
      rewrite <- ?app_assoc; rewrite ?map_map; reflexivity.
  - unfold w'. run_monad.
    apply outcome_ext; [reflexivity|reflexivity|].
    apply world_ext; cbn [w_log w_calls w_pipes w_mem add_log add_call set_pipes set_mem];
      rewrite <- ?app_assoc; reflexivity.
Qed.


Lemma get_image_bundle_no_pipeline drv c w :
  pipeline c = None ->
  get_image_bundle drv c w = (Raise (AttributeError "wait_for_frames"), c, w).
Proof.
  intros Hp. unfold get_image_bundle. unfold bind at 1, get_self at 1.
  now rewrite Hp.
Qed.

Lemma get_image_bundle_not_started drv c w p :
  pipeline c = Some p ->
  w_pipes w !! p <> Some true ->
  get_image_bundle drv c w =
    (Raise (RuntimeError "wait_for_frames cannot be called before start()"), c,
     add_call (Rs.WaitForFrames p) w).
Proof.
  intros Hp Hs. unfold get_image_bundle. unfold bind at 1, get_self at 1.
  rewrite Hp.
  now rewrite (bind_raise _ _ _ _ _ _ _ (wait_for_frames_unstarted drv p c w Hs)).
Qed.

Lemma get_image_bundle_timeout drv c w p e :
  pipeline c = Some p ->
  w_pipes w !! p = Some true ->
  Rs.wait_for_frames drv (w_calls w) = inl e ->
  get_image_bundle drv c w =
    (Raise (RuntimeError e), c, add_call (Rs.WaitForFrames p) w).
Proof.
  intros Hp Hs Hf. unfold get_image_bundle. unfold bind at 1, get_self at 1.
  rewrite Hp.
  now rewrite (bind_raise _ _ _ _ _ _ _ (wait_for_frames_timeout drv p c w e Hs Hf)).
Qed.

(** What an acquisition leaves alone, whatever its outcome: the object, the
    log, the pipelines, and every buffer already in memory. *)
Lemma get_image_bundle_frame drv c w r c' w' :
  get_image_bundle drv c w = (r, c', w') ->
  c' = c /\ w_log w' = w_log w /\ w_pipes w' = w_pipes w /\
  w_mem w `prefix_of` w_mem w'.
Proof.
  intros H.
  destruct (pipeline c) as [p|] eqn:Hp.
  2:{ rewrite (get_image_bundle_no_pipeline _ _ _ Hp) in H.
      inversion H; subst. repeat split; reflexivity. }
  destruct (decide (w_pipes w !! p = Some true)) as [Hs|Hs].
  2:{ rewrite (get_image_bundle_not_started _ _ _ _ Hp Hs) in H.
      inversion H; subst. repeat split; reflexivity. }
  destruct (Rs.wait_for_frames drv (w_calls w)) as [e|fs] eqn:Hf.
  { rewrite (get_image_bundle_timeout _ _ _ _ _ Hp Hs Hf) in H.
    inversion H; subst. repeat split; reflexivity. }
  rewrite (get_image_bundle_started _ _ _ _ _ Hp Hs Hf) in H.
  destruct (scale c); inversion H; subst; cbn;
    (repeat split; try reflexivity); apply prefix_app_r; reflexivity.
Qed.

(** A bundle is returned only from a started pipeline that delivered
    frames, with a scale in place. *)
Lemma get_image_bundle_ok_inv drv c w b c' w' :
  get_image_bundle drv c w = (Ok b, c', w') ->
  exists p fs x,
    pipeline c = Some p /\ w_pipes w !! p = Some true /\
    Rs.wait_for_frames drv (w_calls w) = inr fs /\ scale c = Some x.
Proof.
  intros H.
  destruct (pipeline c) as [p|] eqn:Hp.
  2:{ rewrite (get_image_bundle_no_pipeline _ _ _ Hp) in H. discriminate. }
  destruct (decide (w_pipes w !! p = Some true)) as [Hs|Hs].
  2:{ rewrite (get_image_bundle_not_started _ _ _ _ Hp Hs) in H. discriminate. }
  destruct (Rs.wait_for_frames drv (w_calls w)) as [e|fs] eqn:Hf.
  { rewrite (get_image_bundle_timeout _ _ _ _ _ Hp Hs Hf) in H. discriminate. }
  rewrite (get_image_bundle_started _ _ _ _ _ Hp Hs Hf) in H.
  destruct (scale c) as [x|] eqn:Hx; [|discriminate].
  exists p, fs, x. repeat split; assumption || reflexivity.
Qed.

Lemma plot_image_bundle_frame drv c w r c' w' :
  plot_image_bundle drv c w = (r, c', w') ->
  c' = c /\ w_log w' = w_log w /\ w_pipes w' = w_pipes w /\
  w_mem w `prefix_of` w_mem w'.
Proof.
  unfold plot_image_bundle. unfold bind at 1.
  destruct (get_image_bundle drv c w) as [[r0 c0] w0] eqn:G.
  apply get_image_bundle_frame in G. destruct G as (-> & Hl & Hpi & Hm).
  destruct r0; intros H; inversion H; subst; cbn; auto.
Qed.

(** What any method leaves alone: the stream parameters, the pipelines
    already started, the buffers already in memory; and, connect apart, the
    whole object and every pipeline. *)
Lemma call_method_frame drv m c w r c' w' :
  call_method drv m c w = (r, c', w') ->
  width c' = width c /\ height c' = height c /\ fps c' = fps c /\
  w_mem w `prefix_of` w_mem w' /\
  w_pipes w `prefix_of` w_pipes w' /\
  (m <> Connect -> c' = c /\ w_pipes w' = w_pipes w).
Proof.
  destruct m; cbn [call_method].
  - unfold bind. rewrite get_available_devices_eq. cbn. intros H.
    inversion H; subst. cbn. repeat split; reflexivity.
  - intros H. destruct (Rs.query_devices drv (w_calls w)) as [|dev0 rest] eqn:Hq.
    + rewrite (connect_empty _ _ _ Hq) in H. inversion H; subst. cbn.
      repeat split; try reflexivity; contradiction.
    + rewrite (connect_nonempty _ _ _ _ _ Hq) in H. cbn zeta in H.
      unfold connect_result in H.
      destruct (Rs.start drv _ _); inversion H; subst; cbn;
        (repeat split; try reflexivity; try contradiction);
        apply prefix_app_r; reflexivity.
  - unfold bind. destruct (get_image_bundle drv c w) as [[r0 c0] w0] eqn:G.
    apply get_image_bundle_frame in G. destruct G as (-> & Hl & Hpi & Hm).
    destruct r0; intros H; inversion H; subst; rewrite Hpi; auto 10.
  - intros H. apply plot_image_bundle_frame in H.
    destruct H as (-> & Hl & Hpi & Hm). rewrite Hpi. auto 10.
Qed.

(** ** Runs of methods *)

Lemma connect_ok_inv drv c w c' w' :
  connect drv c w = (Ok tt, c', w') ->
  exists id prof,
    let p := List.length (w_pipes w) in
    let hist := w_calls w ++ connect_calls c p (py_str id) in
    Rs.start drv hist (connect_config c (py_str id)) = inr prof /\
    w_calls w' = hist ++ [Rs.PipelineStart p (connect_config c (py_str id))] /\
    w_pipes w' = w_pipes w ++ [true] /\
    w_mem w' = w_mem w /\
    c' = set_scale (Rs.pp_depth_scale prof)
           (set_intrinsics (Rs.pp_color_intrinsics prof)
              (set_pipeline p (set_device_id id c))).
Proof.
  intros H. destruct (Rs.query_devices drv (w_calls w)) as [|dev0 rest] eqn:Hq.
  { rewrite (connect_empty _ _ _ Hq) in H. discriminate. }
  rewrite (connect_nonempty _ _ _ _ _ Hq) in H. cbn zeta in H.
  set (id := fst _) in H. set (logs := snd _) in H.
  unfold connect_result in H.
  destruct (Rs.start drv _ _) as [e|prof] eqn:E; [discriminate|].
  inversion H; subst c' w'; clear H. exists id, prof. cbn.
  rewrite <- app_assoc. repeat split; try reflexivity. exact E.
Qed.

Lemma run_methods_frame drv ms : forall c w rs c' w',
  run_methods drv ms c w = (rs, c', w') ->
  w_mem w `prefix_of` w_mem w' /\
  w_pipes w `prefix_of` w_pipes w' /\
  (Connect ∉ ms -> c' = c /\ w_pipes w' = w_pipes w).
Proof.
  induction ms as [|m ms IH]; intros c w rs c' w' H; cbn in H.
  - inversion H; subst. repeat split; reflexivity.
  - destruct (call_method drv m c w) as [[r1 c1] w1] eqn:E1.
    destruct (run_methods drv ms c1 w1) as [[rs2 c2] w2] eqn:E2.
    inversion H; subst; clear H.
    apply call_method_frame in E1. destruct E1 as (_ & _ & _ & Hm & Hp & Hc).
    apply IH in E2. destruct E2 as (Hm2 & Hp2 & Hc2).
    split; [etrans; eassumption|]. split; [etrans; eassumption|].
    intros Hnot. apply not_elem_of_cons in Hnot. destruct Hnot as [Hne Hnot].
    destruct (Hc (not_eq_sym Hne)) as [-> Hw].
    destruct (Hc2 Hnot) as [-> Hw2]. split; [reflexivity|congruence].
Qed.

Lemma lookup_third {A} (m : list A) (x y z : A) :
  (m ++ [x; y; z]) !! S (S (List.length m)) = Some z.
Proof.
  rewrite lookup_app_r by lia.
  replace (S (S (List.length m)) - List.length m)%nat with 2%nat by lia.
  reflexivity.
Qed.

Lemma triple_eta {A B C} (t : A * B * C) : t = (fst (fst t), snd (fst t), snd t).
Proof. destruct t as [[? ?] ?]; reflexivity. Qed.

Lemma call_method_unstarted drv m c w r c' w' :
  unstarted c w ->
  call_method drv m c w = (r, c', w') ->
  (m = Connect /\ r = Ok tt) \/ unstarted c' w'.
Proof.
  intros Hu H. destruct (decide (m = Connect)) as [->|Hne].
  - cbn [call_method] in H.
    destruct (Rs.query_devices drv (w_calls w)) as [|dev0 rest] eqn:Hq.
    + rewrite (connect_empty _ _ _ Hq) in H. inversion H; subst. now right.
    + rewrite (connect_nonempty _ _ _ _ _ Hq) in H. cbn zeta in H.
      unfold connect_result in H.
      destruct (Rs.start drv _ _); inversion H; subst; [right|left; auto].
      unfold unstarted. cbn. apply lookup_snoc.
  - right. apply call_method_frame in H.
    destruct H as (_ & _ & _ & _ & _ & Hc). destruct (Hc Hne) as [-> Hp].
    unfold unstarted in *. now rewrite Hp.
Qed.

Lemma run_methods_unstarted drv ms : forall c w rs c' w',
  unstarted c w ->
  run_methods drv ms c w = (rs, c', w') ->
  connected_in ms rs = false ->
  unstarted c' w'.
Proof.
  induction ms as [|m ms IH]; intros c w rs c' w' Hu H Hn; cbn in H.
  - inversion H; subst. exact Hu.
  - destruct (call_method drv m c w) as [[r1 c1] w1] eqn:E1.
    destruct (run_methods drv ms c1 w1) as [[rs2 c2] w2] eqn:E2.
    inversion H; subst; clear H.
    destruct (call_method_unstarted _ _ _ _ _ _ _ Hu E1) as [[-> ->]|Hu1].
    + cbn in Hn. discriminate.
    + apply (IH _ _ _ _ _ Hu1 E2).
      destruct m, r1; cbn in Hn; try exact Hn. discriminate.
Qed.

(** ** Device selection in [connect] *)

(** C3: when the enumeration is empty, [connect] raises the
    "No RealSense devices found" error; the only driver call it makes is the
    enumeration, so no pipeline is created, configured or started. *)
Theorem connect_no_device_found drv c w :
  Rs.query_devices drv (w_calls w) = [] ->
  exists c' w',
    connect drv c w =
      (Raise (RuntimeError "No RealSense devices found"), c', w') /\
    w_calls w' = w_calls w ++ [Rs.QueryDevices] /\
    w_pipes w' = w_pipes w.
Proof.
  intros Hq. rewrite (connect_empty _ _ _ Hq).
  eexists _, _. split; [reflexivity|]. split; reflexivity.
Qed.

Lemma connect_no_device_found_witness :
  Rs.query_devices (Example.driver_with []) (w_calls empty_world) = [] /\
  exists c' w',
    connect (Example.driver_with []) default_camera empty_world =
      (Raise (RuntimeError "No RealSense devices found"), c', w') /\
    w_calls w' = w_calls empty_world ++ [Rs.QueryDevices] /\
    w_pipes w' = w_pipes empty_world.
Proof.
  split; [reflexivity|].
  apply (connect_no_device_found (Example.driver_with []) default_camera
           empty_world).
  reflexivity.
Defined.

(** C10: when [connect] fails because the enumeration is empty, the object
    is left as it was: [device_id], [pipeline], [scale] and [intrinsics]
    (and every other attribute) keep their values. *)
Theorem connect_no_device_keeps_state drv c w r c' w' :
  Rs.query_devices drv (w_calls w) = [] ->
  connect drv c w = (r, c', w') ->
  r = Raise (RuntimeError "No RealSense devices found") /\
  device_id c' = device_id c /\ pipeline c' = pipeline c /\
  scale c' = scale c /\ intrinsics c' = intrinsics c /\ c' = c.
Proof.
  intros Hq H. rewrite (connect_empty _ _ _ Hq) in H.
  inversion H; subst. repeat split.
Qed.

Lemma connect_no_device_keeps_state_witness :
  let c := __init__ (Some (IdStr "999")) 1280 720 15 in
  let out := connect (Example.driver_with []) c empty_world in
  Rs.query_devices (Example.driver_with []) (w_calls empty_world) = [] /\
  fst (fst out) = Raise (RuntimeError "No RealSense devices found") /\
  snd (fst out) = c.
Proof.
  intros c out. split; [reflexivity|].
  destruct (connect_no_device_keeps_state (Example.driver_with []) c
              empty_world (fst (fst out)) (snd (fst out)) (snd out))
    as (Hr & _ & _ & _ & _ & Hc); [reflexivity|reflexivity|].
  split; [exact Hr|exact Hc].
Defined.

(** C7: with [device_id] unset and a non-empty enumeration, [connect] takes
    the device at index 0: [device_id] becomes its serial and the pipeline is
    configured for that serial.  The choice is logged at INFO level, and the
    only other record of the call is not a warning. *)
Theorem connect_unset_selects_first drv c w dev0 rest :
  device_id c = None ->
  Rs.query_devices drv (w_calls w) = dev0 :: rest ->
  let s := Rs.info_serial_number dev0 in
  let p := List.length (w_pipes w) in
  exists r c' w' final,
    connect drv c w = (r, c', w') /\
    device_id c' = Some (IdStr s) /\
    w_calls w' = w_calls w ++ connect_calls c p s ++
                 [Rs.PipelineStart p (connect_config c s)] /\
    w_log w' = w_log w ++
               [{| level := INFO;
                   msg := NoIdUsingFirst (IdStr s) (Rs.info_name dev0) |};
                final] /\
    level final <> WARNING.
Proof.
  intros Hid Hq s p.
  pose proof (connect_nonempty drv c w dev0 rest Hq) as H. cbn zeta in H.
  rewrite Hid in H. cbn [select_device fst snd to_record serial name] in H.
  fold s p in H.
  set (st := Rs.start drv _ _) in H.
  destruct (connect drv c w) as [[r c'] w'].
  destruct (connect_result_log c w (IdStr s)
              [{| level := INFO;
                  msg := NoIdUsingFirst (IdStr s) (Rs.info_name dev0) |}] st)
    as (l & Hl & Hlev).
  exists r, c', w', l. rewrite <- H in Hl.
  split; [reflexivity|]. split.
  { change c' with (snd (fst (r, c', w'))). rewrite H.
    apply connect_result_device_id. }
  split.
  { change w' with (snd (r, c', w')). rewrite H. apply connect_result_calls. }
  split; [exact Hl|exact Hlev].
Qed.

Lemma connect_unset_selects_first_witness :
  let drv := Example.driver_with [Example.d405] in
  device_id default_camera = None /\
  Rs.query_devices drv (w_calls empty_world) = [Example.d405] /\
  exists r c' w' final,
    connect drv default_camera empty_world = (r, c', w') /\
    device_id c' = Some (IdStr "111") /\
    w_calls w' = connect_calls default_camera 0 "111" ++
                 [Rs.PipelineStart 0 (connect_config default_camera "111")] /\
    w_log w' = [{| level := INFO;
                   msg := NoIdUsingFirst (IdStr "111") "D405" |}; final] /\
    level final <> WARNING.
Proof.
  intros drv. split; [reflexivity|]. split; [reflexivity|].
  apply (connect_unset_selects_first drv default_camera empty_world
           Example.d405 []); reflexivity.
Defined.

(** C1: when [device_id] is set but [str(device_id)] is not among the
    enumerated serials of a non-empty enumeration, [connect] goes on with the
    device at index 0: [device_id] becomes its serial and the pipeline is
    configured for it.  Exactly one WARNING record is logged, holding the
    requested id and the list of enumerated serials.  The call returns
    normally when the driver starts the pipeline, and raises only when the
    driver refuses to start it. *)
Theorem connect_mismatch_falls_back drv c w id dev0 rest :
  device_id c = Some id ->
  Rs.query_devices drv (w_calls w) = dev0 :: rest ->
  py_str id ∉ map Rs.info_serial_number (dev0 :: rest) ->
  let s := Rs.info_serial_number dev0 in
  let p := List.length (w_pipes w) in
  let answer := Rs.start drv (w_calls w ++ connect_calls c p s)
                  (connect_config c s) in
  exists r c' w' logs,
    connect drv c w = (r, c', w') /\
    device_id c' = Some (IdStr s) /\
    w_calls w' = w_calls w ++ connect_calls c p s ++
                 [Rs.PipelineStart p (connect_config c s)] /\
    w_log w' = w_log w ++ logs /\
    at_level WARNING logs =
      [{| level := WARNING;
          msg := RequestedNotFound id
                   (map Rs.info_serial_number (dev0 :: rest)) |}] /\
    r = match answer with
        | inl e => Raise (RuntimeError ("Could not connect to camera " +:+
                                        s +:+ ": " +:+ e))
        | inr _ => Ok tt
        end.
Proof.
  intros Hid Hq Hnot s p answer.
  pose proof (connect_nonempty drv c w dev0 rest Hq) as H. cbn zeta in H.
  rewrite Hid in H. unfold select_device in H.
  rewrite serials_of_records in H.
  destruct (decide (py_str id ∈ _)) as [Hin|_]; [contradiction|].
  cbn [fst snd to_record serial name py_str] in H. fold s p answer in H.
  set (logs := [_; _]) in H.
  destruct (connect drv c w) as [[r c'] w'].
  destruct (connect_result_log c w (IdStr s) logs answer) as (l & Hl & Hlev).
  exists r, c', w', (logs ++ [l]). rewrite <- H in Hl.
  split; [reflexivity|]. split.
  { change c' with (snd (fst (r, c', w'))). rewrite H.
    apply connect_result_device_id. }
  split.
  { change w' with (snd (r, c', w')). rewrite H. apply connect_result_calls. }
  split; [exact Hl|]. split.
  { rewrite at_level_app, (at_level_other _ _ Hlev), app_nil_r. reflexivity. }
  change r with (fst (fst (r, c', w'))). rewrite H.
  apply connect_result_outcome.
Qed.

Lemma connect_mismatch_falls_back_witness :
  let drv := Example.driver_with [Example.d405] in
  let c := __init__ (Some (IdStr "999")) 640 480 30 in
  device_id c = Some (IdStr "999") /\
  Rs.query_devices drv (w_calls empty_world) = [Example.d405] /\
  ("999" ∉ ["111"]) /\
  exists r c' w' logs,
    connect drv c empty_world = (r, c', w') /\
    device_id c' = Some (IdStr "111") /\
    w_calls w' = connect_calls c 0 "111" ++
                 [Rs.PipelineStart 0 (connect_config c "111")] /\
    w_log w' = logs /\
    at_level WARNING logs =
      [{| level := WARNING;
          msg := RequestedNotFound (IdStr "999") ["111"] |}] /\
    r = Ok tt.
Proof.
  intros drv c. split; [reflexivity|]. split; [reflexivity|].
  split; [by_decide|].
  apply (connect_mismatch_falls_back drv c empty_world (IdStr "999")
           Example.d405 []); [reflexivity|reflexivity|by_decide].
Defined.

(** C8: when [str(device_id)] is among the enumerated serials, [connect]
    keeps the requested id and configures the pipeline for exactly that
    serial; nothing is logged about the selection, and the one record of the
    call is not a warning. *)
Theorem connect_match_selects_requested drv c w id dev0 rest :
  device_id c = Some id ->
  Rs.query_devices drv (w_calls w) = dev0 :: rest ->
  py_str id ∈ map Rs.info_serial_number (dev0 :: rest) ->
  let s := py_str id in
  let p := List.length (w_pipes w) in
  exists r c' w' final,
    connect drv c w = (r, c', w') /\
    device_id c' = Some id /\
    w_calls w' = w_calls w ++ connect_calls c p s ++
                 [Rs.PipelineStart p (connect_config c s)] /\
    w_log w' = w_log w ++ [final] /\
    level final <> WARNING.
Proof.
  intros Hid Hq Hin s p.
  pose proof (connect_nonempty drv c w dev0 rest Hq) as H. cbn zeta in H.
  rewrite Hid in H. unfold select_device in H.
  rewrite serials_of_records in H.
  destruct (decide (py_str id ∈ _)) as [_|Hnot]; [|contradiction].
  cbn [fst snd] in H. fold s p in H.
  set (answer := Rs.start drv _ _) in H.
  destruct (connect drv c w) as [[r c'] w'].
  destruct (connect_result_log c w id [] answer) as (l & Hl & Hlev).
  exists r, c', w', l. rewrite <- H in Hl.
  split; [reflexivity|]. split.
  { change c' with (snd (fst (r, c', w'))). rewrite H.
    apply connect_result_device_id. }
  split.
  { change w' with (snd (r, c', w')). rewrite H. apply connect_result_calls. }
  split; [exact Hl|exact Hlev].
Qed.

Lemma connect_match_selects_requested_witness :
  let drv := Example.driver_with [Example.d405; Example.d435] in
  let c := __init__ (Some (IdStr "222")) 640 480 30 in
  device_id c = Some (IdStr "222") /\
  Rs.query_devices drv (w_calls empty_world) = [Example.d405; Example.d435] /\
  ("222" ∈ ["111"; "222"]) /\
  exists r c' w' final,
    connect drv c empty_world = (r, c', w') /\
    device_id c' = Some (IdStr "222") /\
    w_calls w' = connect_calls c 0 "222" ++
                 [Rs.PipelineStart 0 (connect_config c "222")] /\
    w_log w' = [final] /\
    level final <> WARNING.
Proof.
  intros drv c. split; [reflexivity|]. split; [reflexivity|].
  split; [by_decide|].
  apply (connect_match_selects_requested drv c empty_world (IdStr "222")
           Example.d405 [Example.d435]); [reflexivity|reflexivity|by_decide].
Defined.

(** ** The configuration attributes *)

(** C4 as the specification states it does not hold: [connect] assigns
    [device_id].  With [device_id] unset and one device attached, the
    attribute goes from [None] to that device's serial. *)
Lemma connect_rewrites_device_id :
  ~ (forall drv m c w r c' w',
       call_method drv m c w = (r, c', w') ->
       device_id c' = device_id c /\ width c' = width c /\
       height c' = height c /\ fps c' = fps c).
Proof.
  intros H.
  destruct (H Example.drv1 Connect default_camera empty_world _ _ _
              (triple_eta _)) as [Hid _].
  vm_compute in Hid. discriminate.
Qed.

(** C4, amended: no method changes [width], [height] or [fps].  [device_id]
    is changed by [connect] only: it is kept when the enumeration is empty or
    when [str(device_id)] is an enumerated serial, and otherwise (unset, or
    not enumerated) it becomes the serial of the device at index 0. *)
Theorem config_fields_after_method drv m c w r c' w' :
  call_method drv m c w = (r, c', w') ->
  width c' = width c /\ height c' = height c /\ fps c' = fps c /\
  device_id c' =
    match m with
    | Connect =>
        device_id_after_connect (device_id c) (Rs.query_devices drv (w_calls w))
    | _ => device_id c
    end.
Proof.
  intros H.
  destruct (call_method_frame _ _ _ _ _ _ _ H) as (Hw & Hh & Hf & _ & _ & Hc).
  split; [exact Hw|]. split; [exact Hh|]. split; [exact Hf|].
  destruct (decide (m = Connect)) as [->|Hne].
  2:{ destruct (Hc Hne) as [-> _]. destruct m; congruence. }
  cbn [call_method] in H. unfold device_id_after_connect.
  destruct (Rs.query_devices drv (w_calls w)) as [|dev0 rest] eqn:Hq.
  - rewrite (connect_empty _ _ _ Hq) in H. now inversion H.
  - rewrite (connect_nonempty _ _ _ _ _ Hq) in H. cbn zeta in H.
    assert (device_id c' = Some (fst (select_device (device_id c)
              (map to_record (dev0 :: rest)) (to_record dev0)))) as ->.
    { change c' with (snd (fst (r, c', w'))). rewrite <- H.
      apply connect_result_device_id. }
    unfold select_device. rewrite serials_of_records.
    destruct (device_id c) as [v|]; [|reflexivity].
    destruct (decide _); reflexivity.
Qed.

Lemma config_fields_after_method_witness :
  let c := __init__ (Some (IdInt 999)) 1280 720 15 in
  let out := call_method Example.drv1 Connect c empty_world in
  width (snd (fst out)) = 1280 /\ height (snd (fst out)) = 720 /\
  fps (snd (fst out)) = 15 /\
  device_id (snd (fst out)) = Some (IdStr "111").
Proof.
  intros c out.
  apply (config_fields_after_method Example.drv1 Connect c empty_world
           (fst (fst out)) (snd (fst out)) (snd out)).
  apply triple_eta.
Defined.

(** ** Acquisition *)

(** C5: every bundle [get_image_bundle] returns has an [aligned_depth] of
    rank 3 whose last dimension is 1, whatever the frame sizes; and when the
    driver's aligned frameset has its depth frame on the grid of its color
    frame, the first two dimensions are those of [rgb]. *)
Theorem bundle_shapes drv c w b c' w' :
  get_image_bundle drv c w = (Ok b, c', w') ->
  exists fs h wd,
    Rs.wait_for_frames drv (w_calls w) = inr fs /\
    Np.shape (aligned_depth b) = [h; wd; 1%nat] /\
    (aligned_to_color (Rs.align_process drv fs) ->
     Np.shape (rgb b) = [h; wd; 3%nat]).
Proof.
  intros H.
  destruct (get_image_bundle_ok_inv _ _ _ _ _ _ H) as (p & fs & x & Hp & Hs & Hf & Hx).
  rewrite (get_image_bundle_started _ _ _ _ _ Hp Hs Hf), Hx in H.
  inversion H; subst; clear H. cbn.
  eexists fs, _, _. split; [exact Hf|]. split; [reflexivity|].
  intros [Hh Hw]. now rewrite Hh, Hw.
Qed.

Lemma bundle_shapes_witness :
  get_image_bundle Example.drv1 Example.cam1 Example.world1 =
    (Ok {| rgb := {| Np.base := 0; Np.shape := [1; 2; 3]%nat |};
           aligned_depth := {| Np.base := 2; Np.shape := [1; 2; 1]%nat |} |},
     Example.cam1,
     snd (get_image_bundle Example.drv1 Example.cam1 Example.world1)) /\
  exists fs h wd,
    Rs.wait_for_frames Example.drv1 (w_calls Example.world1) = inr fs /\
    [1; 2; 1]%nat = [h; wd; 1%nat] /\
    (aligned_to_color (Rs.align_process Example.drv1 fs) ->
     [1; 2; 3]%nat = [h; wd; 3%nat]).
Proof.
  split; [vm_compute; reflexivity|].
  apply (bundle_shapes Example.drv1 Example.cam1 Example.world1
           {| rgb := {| Np.base := 0; Np.shape := [1; 2; 3]%nat |};
              aligned_depth := {| Np.base := 2; Np.shape := [1; 2; 1]%nat |} |}
           Example.cam1
           (snd (get_image_bundle Example.drv1 Example.cam1 Example.world1))).
  vm_compute; reflexivity.
Defined.

(** C2: after a successful [connect], [scale] is the depth scale the driver
    reported when it started the pipeline.  Any later acquisition of that
    connection for which the driver delivers frames returns a bundle whose
    [aligned_depth] holds the aligned raw depth samples, each converted to
    [float32] and multiplied by that scale once; and whatever methods run
    afterwards, acquisitions included, the data of that bundle stay as they
    are. *)
Theorem depth_scaled_once drv c0 w0 c1 w1 ms1 rs1 c2 w2 fs :
  connect drv c0 w0 = (Ok tt, c1, w1) ->
  Connect ∉ ms1 ->
  run_methods drv ms1 c1 w1 = (rs1, c2, w2) ->
  Rs.wait_for_frames drv (w_calls w2) = inr fs ->
  exists hist p cfg prof b w3,
    w_calls w1 = hist ++ [Rs.PipelineStart p cfg] /\
    Rs.start drv hist cfg = inr prof /\
    scale c1 = Some (Rs.pp_depth_scale prof) /\
    get_image_bundle drv c2 w2 = (Ok b, c2, w3) /\
    let depth :=
      Np.BufF32 (scaled_once (Rs.pp_depth_scale prof)
                   (Rs.vf_data (Rs.fs_depth (Rs.align_process drv fs)))) in
    w_mem w3 !! Np.base (aligned_depth b) = Some depth /\
    forall ms2 rs2 c4 w4,
      run_methods drv ms2 c2 w3 = (rs2, c4, w4) ->
      w_mem w4 !! Np.base (aligned_depth b) = Some depth.
Proof.
  intros Hc Hnot Hr1 Hf.
  destruct (connect_ok_inv _ _ _ _ _ Hc)
    as (id & prof & Hst & Hcalls & Hpipes & _ & Hc1).
  cbn zeta in Hst, Hcalls.
  destruct (run_methods_frame _ _ _ _ _ _ _ Hr1) as (_ & _ & Hsame).
  destruct (Hsame Hnot) as [-> Hp2].
  assert (pipeline c1 = Some (List.length (w_pipes w0))) as Hp
    by (rewrite Hc1; reflexivity).
  assert (scale c1 = Some (Rs.pp_depth_scale prof)) as Hx
    by (rewrite Hc1; reflexivity).
  assert (w_pipes w2 !! List.length (w_pipes w0) = Some true) as Hs
    by (rewrite Hp2, Hpipes; apply lookup_snoc).
  pose proof (get_image_bundle_started _ _ _ _ _ Hp Hs Hf) as Hg.
  cbn zeta in Hg. rewrite Hx in Hg.
  eexists _, _, _, prof, _, _.
  split; [exact Hcalls|]. split; [exact Hst|]. split; [exact Hx|].
  split; [exact Hg|].
  cbn zeta. cbn [aligned_depth Np.base w_mem].
  split; [apply lookup_third|].
  intros ms2 rs2 c4 w4 Hr2.
  destruct (run_methods_frame _ _ _ _ _ _ _ Hr2) as (Hpre & _ & _).
  cbn [w_mem] in Hpre.
  eapply prefix_lookup_Some; [apply lookup_third|exact Hpre].
Qed.

Lemma depth_scaled_once_witness :
  let drv := Example.drv1 in
  let run1 := run_methods drv [GetImageBundle] Example.cam1 Example.world1 in
  let acq := get_image_bundle drv (snd (fst run1)) (snd run1) in
  let run2 := run_methods drv [GetImageBundle; PlotImageBundle]
                (snd (fst run1)) (snd acq) in
  let b := {| rgb := {| Np.base := 3; Np.shape := [1; 2; 3]%nat |};
              aligned_depth := {| Np.base := 5; Np.shape := [1; 2; 1]%nat |} |} in
  connect drv default_camera empty_world = (Ok tt, Example.cam1, Example.world1) /\
  (Connect ∉ [GetImageBundle]) /\
  Rs.wait_for_frames drv (w_calls (snd run1)) = inr Example.frames /\
  scale Example.cam1 = Some Example.f64_0_001 /\
  fst (fst acq) = Ok b /\
  w_mem (snd acq) !! 5%nat = Some (Np.BufF32 [Example.f32_2_0; S754_zero false]) /\
  w_mem (snd run2) !! 5%nat = Some (Np.BufF32 [Example.f32_2_0; S754_zero false]).
Proof.
  intros drv run1 acq run2 b.
  assert (connect drv default_camera empty_world =
            (Ok tt, Example.cam1, Example.world1)) as Hc
    by (vm_compute; reflexivity).
  assert (Connect ∉ [GetImageBundle]) as Hnot by by_decide.
  split; [exact Hc|]. split; [exact Hnot|]. split; [reflexivity|].
  split; [reflexivity|].
  destruct (depth_scaled_once drv default_camera empty_world Example.cam1
              Example.world1 [GetImageBundle] (fst (fst run1)) (snd (fst run1))
              (snd run1) Example.frames Hc Hnot (triple_eta _) eq_refl)
    as (hist & p & cfg & prof & b' & w3 & _ & Hst & _ & Hg & H3 & H4).
  cbn in Hst. injection Hst as <-.
  fold acq in Hg.
  assert (fst (fst acq) = Ok b) as Hb by (vm_compute; reflexivity).
  rewrite Hg in Hb. cbn [fst] in Hb. injection Hb as ->.
  split; [rewrite Hg; reflexivity|].
  split; [rewrite Hg; exact H3|].
  apply (H4 [GetImageBundle; PlotImageBundle] (fst (fst run2)) (snd (fst run2))).
  subst run2. rewrite Hg. apply triple_eta.
Defined.

(** C6: on an object on which no [connect] has returned normally, whatever
    other calls were made, [get_image_bundle] raises and returns no bundle:
    [AttributeError] when there is no pipeline object yet, and the driver's
    [RuntimeError] when the pipeline was created but never started.  (The
    class has no operation that closes a connection.) *)
Theorem acquire_without_connect_fails drv id wd ht f w0 ms rs c w :
  run_methods drv ms (__init__ id wd ht f) w0 = (rs, c, w) ->
  connected_in ms rs = false ->
  exists e w',
    get_image_bundle drv c w = (Raise e, c, w') /\
    (e = AttributeError "wait_for_frames" \/
     e = RuntimeError "wait_for_frames cannot be called before start()").
Proof.
  intros Hrun Hn.
  assert (unstarted c w) as Hu.
  { eapply run_methods_unstarted; [|exact Hrun|exact Hn]. exact I. }
  unfold unstarted in Hu. destruct (pipeline c) as [p|] eqn:Hp.
  - eexists _, _. split; [|right; reflexivity].
    apply (get_image_bundle_not_started _ _ _ p Hp). congruence.
  - eexists _, _. split; [|left; reflexivity].
    apply (get_image_bundle_no_pipeline _ _ _ Hp).
Qed.

Lemma acquire_without_connect_fails_witness :
  let drv := Example.driver_busy [Example.d405] in
  let run := run_methods drv [GetAvailableDevices; Connect] default_camera
               empty_world in
  connected_in [GetAvailableDevices; Connect] (fst (fst run)) = false /\
  exists e w',
    get_image_bundle drv (snd (fst run)) (snd run) = (Raise e, snd (fst run), w') /\
    (e = AttributeError "wait_for_frames" \/
     e = RuntimeError "wait_for_frames cannot be called before start()").
Proof.
  intros drv run.
  assert (connected_in [GetAvailableDevices; Connect] (fst (fst run)) = false)
    as Hn by (vm_compute; reflexivity).
  split; [exact Hn|].
  apply (acquire_without_connect_fails drv None 640 480 30 empty_world
           [GetAvailableDevices; Connect] (fst (fst run))).
  - apply triple_eta.
  - exact Hn.
Defined.

(** ** Release of the pipeline *)

(** C9 as the specification states it does not hold: the class has no
    [disconnect].  The call raises [AttributeError] on a camera that never
    connected, and on a connected camera it raises too and the pipeline is
    still held and started. *)
Lemma disconnect_raises_and_releases_nothing :
  invoke Example.drv1 "disconnect" default_camera empty_world =
    (Raise (AttributeError "disconnect"), default_camera, empty_world) /\
  invoke Example.drv1 "disconnect" Example.cam1 Example.world1 =
    (Raise (AttributeError "disconnect"), Example.cam1, Example.world1) /\
  pipeline Example.cam1 = Some 0%nat /\
  w_pipes Example.world1 !! 0%nat = Some true.
Proof. repeat split; vm_compute; reflexivity. Qed.

(** C9, amended: calling [disconnect] on any camera object raises
    [AttributeError] and changes neither the object nor the world; and no
    method of the class stops a started pipeline or clears [pipeline]. *)
Theorem no_disconnect drv c w :
  invoke drv "disconnect" c w = (Raise (AttributeError "disconnect"), c, w) /\
  forall m r c' w',
    call_method drv m c w = (r, c', w') ->
    (forall p, w_pipes w !! p = Some true -> w_pipes w' !! p = Some true) /\
    (pipeline c <> None -> pipeline c' <> None).
Proof.
  split; [reflexivity|].
  intros m r c' w' H. split.
  - intros p Hp. apply call_method_frame in H.
    destruct H as (_ & _ & _ & _ & Hpre & _).
    eapply prefix_lookup_Some; eassumption.
  - intros Hsome. destruct (decide (m = Connect)) as [->|Hne].
    + cbn [call_method] in H.
      destruct (Rs.query_devices drv (w_calls w)) as [|dev0 rest] eqn:Hq.
      * rewrite (connect_empty _ _ _ Hq) in H. now inversion H; subst.
      * rewrite (connect_nonempty _ _ _ _ _ Hq) in H. cbn zeta in H.
        unfold connect_result in H.
        destruct (Rs.start drv _ _); inversion H; subst; cbn; discriminate.
    + apply call_method_frame in H.
      destruct H as (_ & _ & _ & _ & _ & Hc). now destruct (Hc Hne) as [-> _].
Qed.

Lemma no_disconnect_witness :
  invoke Example.drv1 "disconnect" Example.cam1 Example.world1 =
    (Raise (AttributeError "disconnect"), Example.cam1, Example.world1) /\
  forall m r c' w',
    call_method Example.drv1 m Example.cam1 Example.world1 = (r, c', w') ->
    (forall p, w_pipes Example.world1 !! p = Some true ->
               w_pipes w' !! p = Some true) /\
    (pipeline Example.cam1 <> None -> pipeline c' <> None).
Proof. exact (no_disconnect Example.drv1 Example.cam1 Example.world1). Defined.

(** ** More on enumeration and [connect] *)

Lemma lookup_map_Some {A B} (f : A -> B) (l : list A) : forall i x,
  l !! i = Some x -> map f l !! i = Some (f x).
Proof.
  induction l as [|a l IH]; intros [|i] x H; cbn in *; try discriminate.
  - now inversion H.
  - now apply IH.
Qed.

Lemma connect_selected_enumerated id dev0 rest :
  py_str (fst (select_device id (map to_record (dev0 :: rest))
                 (to_record dev0)))
    ∈ map Rs.info_serial_number (dev0 :: rest).
Proof.
  unfold select_device. rewrite serials_of_records.
  destruct id as [v|]; cbn [fst].
  - destruct (decide _) as [Hin|_]; cbn [fst]; [exact Hin|].
    cbn. apply list_elem_of_here.
  - cbn. apply list_elem_of_here.
Qed.

(** X1: [get_available_devices] never raises and leaves the object alone.
    It returns one dictionary per device the driver reports, in the driver's
    order, holding that device's serial number and name (so an empty list
    when nothing is attached), and its only effect outside the object is the
    one enumeration call. *)
Theorem get_available_devices_lists_all drv c w :
  exists l w',
    get_available_devices drv c w = (Ok l, c, w') /\
    List.length l = List.length (Rs.query_devices drv (w_calls w)) /\
    (forall i dev,
       Rs.query_devices drv (w_calls w) !! i = Some dev ->
       l !! i = Some {| serial := Rs.info_serial_number dev;
                        name := Rs.info_name dev |}) /\
    w_calls w' = w_calls w ++ [Rs.QueryDevices] /\
    w_log w' = w_log w /\ w_pipes w' = w_pipes w /\ w_mem w' = w_mem w.
Proof.
  rewrite get_available_devices_eq. eexists _, _. split; [reflexivity|].
  split; [apply length_map|]. split.
  - intros i dev Hi. apply (lookup_map_Some to_record _ _ _ Hi).
  - repeat split.
Qed.

Lemma get_available_devices_lists_all_witness :
  let drv := Example.driver_with [Example.d405; Example.d435] in
  exists l w',
    get_available_devices drv default_camera empty_world =
      (Ok l, default_camera, w') /\
    List.length l = 2%nat /\
    (forall i dev,
       [Example.d405; Example.d435] !! i = Some dev ->
       l !! i = Some {| serial := Rs.info_serial_number dev;
                        name := Rs.info_name dev |}) /\
    w_calls w' = [Rs.QueryDevices] /\
    w_log w' = [] /\ w_pipes w' = [] /\ w_mem w' = [].
Proof.
  intros drv.
  exact (get_available_devices_lists_all drv default_camera empty_world).
Defined.



(** X3: whatever [device_id] holds, a [connect] that finds devices hands to
    [pipeline.start] a configuration bound to one of the enumerated serials,
    the one [str(self.device_id)] now gives, with exactly two streams: depth
    in [z16] and color in [rgb8], both at [width] x [height] and [fps].  The
    pipeline is a new object, which [pipeline] refers to. *)
Theorem connect_binds_enumerated_device drv c w dev0 rest :
  Rs.query_devices drv (w_calls w) = dev0 :: rest ->
  exists r c' w' hist p s,
    connect drv c w = (r, c', w') /\
    w_calls w' =
      hist ++
      [Rs.PipelineStart p
         {| Rs.cfg_device := Some s;
            Rs.cfg_streams :=
              [{| Rs.sr_stream := Rs.depth; Rs.sr_width := width c;
                  Rs.sr_height := height c; Rs.sr_format := Rs.z16;
                  Rs.sr_fps := fps c |};
               {| Rs.sr_stream := Rs.color; Rs.sr_width := width c;
                  Rs.sr_height := height c; Rs.sr_format := Rs.rgb8;
                  Rs.sr_fps := fps c |}] |}] /\
    s ∈ map Rs.info_serial_number (dev0 :: rest) /\
    str_device_id (device_id c') = s /\
    pipeline c' = Some p /\
    w_pipes w !! p = None.
Proof.
  intros Hq. pose proof (connect_nonempty drv c w dev0 rest Hq) as H.
  cbn zeta in H.
  set (sel := select_device _ _ _) in H.
  set (answer := Rs.start drv _ _) in H.
  destruct (connect drv c w) as [[r c'] w'].
  exists r, c', w', (w_calls w ++ connect_calls c (List.length (w_pipes w))
                       (py_str (fst sel))),
    (List.length (w_pipes w)), (py_str (fst sel)).
  split; [reflexivity|]. split.
  { change w' with (snd (r, c', w')). rewrite H, connect_result_calls.
    rewrite app_assoc. reflexivity. }
  split; [apply connect_selected_enumerated|].
  split.
  { change c' with (snd (fst (r, c', w'))). rewrite H, connect_result_device_id.
    reflexivity. }
  split.
  { change c' with (snd (fst (r, c', w'))). rewrite H.
    unfold connect_result. destruct answer; reflexivity. }
  apply lookup_ge_None. lia.
Qed.

Lemma connect_binds_enumerated_device_witness :
  let drv := Example.driver_with [Example.d405; Example.d435] in
  let c := __init__ (Some (IdInt 222)) 1280 720 15 in
  Rs.query_devices drv (w_calls empty_world) = [Example.d405; Example.d435] /\
  exists r c' w' hist p s,
    connect drv c empty_world = (r, c', w') /\
    w_calls w' =
      hist ++
      [Rs.PipelineStart p
         {| Rs.cfg_device := Some s;
            Rs.cfg_streams :=
              [{| Rs.sr_stream := Rs.depth; Rs.sr_width := 1280;
                  Rs.sr_height := 720; Rs.sr_format := Rs.z16;
                  Rs.sr_fps := 15 |};
               {| Rs.sr_stream := Rs.color; Rs.sr_width := 1280;
                  Rs.sr_height := 720; Rs.sr_format := Rs.rgb8;
                  Rs.sr_fps := 15 |}] |}] /\
    s ∈ ["111"; "222"] /\
    str_device_id (device_id c') = s /\
    pipeline c' = Some p /\
    @nil bool !! p = None.
Proof.
  intros drv c. split; [reflexivity|].
  apply (connect_binds_enumerated_device drv c empty_world Example.d405
           [Example.d435]).
  reflexivity.
Defined.

(** X4: the selection is stable.  Once a [connect] has gone through device
    selection, a later [connect] on the same object that sees the same
    enumeration keeps [device_id] as it is and logs no warning and no
    fallback: its single log record is that of the start. *)
Theorem connect_selection_stable drv c w dev0 rest r c1 w1 w2 :
  Rs.query_devices drv (w_calls w) = dev0 :: rest ->
  connect drv c w = (r, c1, w1) ->
  Rs.query_devices drv (w_calls w2) = dev0 :: rest ->
  exists r2 c2 w3 final,
    connect drv c1 w2 = (r2, c2, w3) /\
    device_id c2 = device_id c1 /\
    w_log w3 = w_log w2 ++ [final] /\
    level final <> WARNING.
Proof.
  intros Hq Hc Hq2.
  assert (exists id1, device_id c1 = Some id1 /\
            py_str id1 ∈ map Rs.info_serial_number (dev0 :: rest))
    as (id1 & Hid1 & Hin).
  { rewrite (connect_nonempty drv c w dev0 rest Hq) in Hc. cbn zeta in Hc.
    eexists. split.
    - change c1 with (snd (fst (r, c1, w1))). rewrite <- Hc.
      apply connect_result_device_id.
    - apply connect_selected_enumerated. }
  pose proof (connect_nonempty drv c1 w2 dev0 rest Hq2) as H. cbn zeta in H.
  rewrite Hid1 in H. unfold select_device in H.
  rewrite serials_of_records in H.
  destruct (decide (py_str id1 ∈ _)) as [_|Hnot]; [|contradiction].
  cbn [fst snd] in H.
  set (answer := Rs.start drv _ _) in H.
  destruct (connect drv c1 w2) as [[r2 c2] w3].
  destruct (connect_result_log c1 w2 id1 [] answer) as (l & Hl & Hlev).
  exists r2, c2, w3, l. rewrite <- H in Hl.
  split; [reflexivity|]. split.
  { change c2 with (snd (fst (r2, c2, w3))). rewrite H, Hid1.
    apply connect_result_device_id. }
  split; [exact Hl|exact Hlev].
Qed.

Lemma connect_selection_stable_witness :
  let drv := Example.driver_with [Example.d405] in
  let c := __init__ (Some (IdStr "999")) 640 480 30 in
  let first := connect drv c empty_world in
  Rs.query_devices drv (w_calls empty_world) = [Example.d405] /\
  Rs.query_devices drv (w_calls (snd first)) = [Example.d405] /\
  device_id (snd (fst first)) = Some (IdStr "111") /\
  exists r2 c2 w3 final,
    connect drv (snd (fst first)) (snd first) = (r2, c2, w3) /\
    device_id c2 = device_id (snd (fst first)) /\
    w_log w3 = w_log (snd first) ++ [final] /\
    level final <> WARNING.
Proof.
  intros drv c first. split; [reflexivity|]. split; [reflexivity|].
  split; [reflexivity|].
  apply (connect_selection_stable drv c empty_world Example.d405 []
           (fst (fst first)) (snd (fst first)) (snd first) (snd first));
    [reflexivity|apply triple_eta|reflexivity].
Defined.

(** X5: a [connect] that fails after the enumeration, that is at the start
    of the pipeline, leaves the object unable to acquire: [pipeline] refers
    to the new pipeline object, which was never started, so
    [get_image_bundle] raises the driver's [RuntimeError], even on an object
    that was connected before.  The pipelines started earlier stay started,
    and [scale] and [intrinsics] keep their values. *)
Theorem failed_start_disables_acquisition drv c w dev0 rest e c' w' :
  Rs.query_devices drv (w_calls w) = dev0 :: rest ->
  connect drv c w = (Raise e, c', w') ->
  (exists w'',
     get_image_bundle drv c' w' =
       (Raise (RuntimeError "wait_for_frames cannot be called before start()"),
        c', w'')) /\
  pipeline c' = Some (List.length (w_pipes w)) /\
  (forall p, w_pipes w !! p = Some true -> w_pipes w' !! p = Some true) /\
  scale c' = scale c /\ intrinsics c' = intrinsics c.
Proof.
  intros Hq H. rewrite (connect_nonempty drv c w dev0 rest Hq) in H.
  cbn zeta in H. unfold connect_result in H.
  destruct (Rs.start drv _ _) as [m|prof]; [|discriminate].
  inversion H; subst; clear H. split; [|split; [|split]].
  - eexists. apply get_image_bundle_not_started with (p := List.length (w_pipes w)).
    + reflexivity.
    + cbn. rewrite lookup_snoc. discriminate.
  - reflexivity.
  - intros p Hp. cbn. apply lookup_app_l_Some. exact Hp.
  - split; reflexivity.
Qed.

Lemma failed_start_disables_acquisition_witness :
  let drv := Example.driver_busy [Example.d405] in
  let again := connect drv Example.cam1 Example.world1 in
  Rs.query_devices drv (w_calls Example.world1) = [Example.d405] /\
  fst (fst again) =
    Raise (RuntimeError "Could not connect to camera 111: Device or resource busy") /\
  (exists w'',
     get_image_bundle drv (snd (fst again)) (snd again) =
       (Raise (RuntimeError "wait_for_frames cannot be called before start()"),
        snd (fst again), w'')) /\
  pipeline (snd (fst again)) = Some 1%nat /\
  w_pipes (snd again) !! 0%nat = Some true /\
  scale (snd (fst again)) = Some Example.f64_0_001.
Proof.
  intros drv again. split; [reflexivity|].
  assert (again =
            (Raise (RuntimeError
                      "Could not connect to camera 111: Device or resource busy"),
             snd (fst again), snd again)) as Hagain
    by (vm_compute; reflexivity).
  split; [rewrite Hagain; reflexivity|].
  destruct (failed_start_disables_acquisition drv Example.cam1 Example.world1
              Example.d405 [] _ _ _ eq_refl Hagain)
    as (Hacq & Hp & Hkeep & Hx & _).
  split; [exact Hacq|]. split; [exact Hp|].
  split; [apply Hkeep; reflexivity|exact Hx].
Defined.

(** X6: the calibration is captured once.  After a successful [connect],
    [intrinsics] and [scale] are the color intrinsics and the depth scale of
    the profile the driver returned from [pipeline.start], and [pipeline] is
    the started pipeline; any run of the other methods leaves all of this as
    it is. *)
Theorem calibration_captured_once drv c0 w0 c1 w1 ms rs c2 w2 :
  connect drv c0 w0 = (Ok tt, c1, w1) ->
  Connect ∉ ms ->
  run_methods drv ms c1 w1 = (rs, c2, w2) ->
  exists hist p cfg prof,
    w_calls w1 = hist ++ [Rs.PipelineStart p cfg] /\
    Rs.start drv hist cfg = inr prof /\
    intrinsics c2 = Some (Rs.pp_color_intrinsics prof) /\
    scale c2 = Some (Rs.pp_depth_scale prof) /\
    pipeline c2 = Some p /\
    w_pipes w2 !! p = Some true.
Proof.
  intros Hc Hnot Hr.
  destruct (connect_ok_inv _ _ _ _ _ Hc)
    as (id & prof & Hst & Hcalls & Hpipes & _ & Hc1).
  cbn zeta in Hst, Hcalls.
  destruct (run_methods_frame _ _ _ _ _ _ _ Hr) as (_ & _ & Hsame).
  destruct (Hsame Hnot) as [-> Hp2].
  eexists _, _, _, prof. split; [exact Hcalls|]. split; [exact Hst|].
  rewrite Hc1. cbn. repeat split.
  rewrite Hp2, Hpipes. apply lookup_snoc.
Qed.

Lemma calibration_captured_once_witness :
  let drv := Example.drv1 in
  let ms := [GetImageBundle; GetAvailableDevices; PlotImageBundle] in
  let run := run_methods drv ms Example.cam1 Example.world1 in
  connect drv default_camera empty_world = (Ok tt, Example.cam1, Example.world1) /\
  (Connect ∉ ms) /\
  intrinsics (snd (fst run)) = Some Example.some_intrinsics /\
  scale (snd (fst run)) = Some Example.f64_0_001 /\
  pipeline (snd (fst run)) = Some 0%nat /\
  w_pipes (snd run) !! 0%nat = Some true.
Proof.
  intros drv ms run.
  assert (connect drv default_camera empty_world =
            (Ok tt, Example.cam1, Example.world1)) as Hc
    by (vm_compute; reflexivity).
  assert (Connect ∉ ms) as Hnot by by_decide.
  split; [exact Hc|]. split; [exact Hnot|].
  destruct (calibration_captured_once drv default_camera empty_world
              Example.cam1 Example.world1 ms (fst (fst run)) (snd (fst run))
              (snd run) Hc Hnot (triple_eta _))
    as (hist & p & cfg & prof & Hcalls & Hst & Hi & Hx & Hp & Hs).
  cbn in Hst. injection Hst as <-.
  assert (p = 0%nat) as ->.
  { assert (last (w_calls Example.world1) =
              Some (Rs.PipelineStart 0 (connect_config default_camera "111")))
      as Hlast by (vm_compute; reflexivity).
    rewrite Hcalls, last_snoc in Hlast. congruence. }
  repeat split; assumption.
Defined.

(** ** More on acquisition *)

Lemma lookup_first {A} (m : list A) (x y z : A) :
  (m ++ [x; y; z]) !! List.length m = Some x.
Proof. now apply list_lookup_middle. Qed.

Lemma lookup_second {A} (m : list A) (x y z : A) :
  (m ++ [x; y; z]) !! S (List.length m) = Some y.
Proof.
  rewrite lookup_app_r by lia.
  replace (S (List.length m) - List.length m)%nat with 1%nat by lia.
  reflexivity.
Qed.


(** X7: a timeout does not break the connection.  When the driver delivers
    no frames, [get_image_bundle] raises [RuntimeError] with the driver's
    message and changes nothing but the history of driver calls: the object,
    the log, the pipelines and the memory are as before; and the next
    acquisition returns a bundle when the driver then delivers frames. *)
Theorem timeout_keeps_connection drv c w p e fs x :
  pipeline c = Some p ->
  w_pipes w !! p = Some true ->
  scale c = Some x ->
  Rs.wait_for_frames drv (w_calls w) = inl e ->
  Rs.wait_for_frames drv (w_calls w ++ [Rs.WaitForFrames p]) = inr fs ->
  exists w' b w'',
    get_image_bundle drv c w = (Raise (RuntimeError e), c, w') /\
    w_calls w' = w_calls w ++ [Rs.WaitForFrames p] /\
    w_log w' = w_log w /\ w_pipes w' = w_pipes w /\ w_mem w' = w_mem w /\
    get_image_bundle drv c w' = (Ok b, c, w'').
Proof.
  intros Hp Hs Hx Hf Hf2.
  rewrite (get_image_bundle_timeout _ _ _ _ _ Hp Hs Hf).
  pose proof (get_image_bundle_started drv c (add_call (Rs.WaitForFrames p) w)
                p fs Hp Hs Hf2) as Hg.
  cbn zeta in Hg. rewrite Hx in Hg.
  eexists _, _, _. split; [reflexivity|]. repeat split. exact Hg.
Qed.

Lemma timeout_keeps_connection_witness :
  let drv := Example.driver_flaky [Example.d405] in
  let c := Example.cam1 in
  let w := Example.world1 in
  pipeline c = Some 0%nat /\
  w_pipes w !! 0%nat = Some true /\
  scale c = Some Example.f64_0_001 /\
  Rs.wait_for_frames drv (w_calls w) = inl "Frame didn't arrive within 15000" /\
  Rs.wait_for_frames drv (w_calls w ++ [Rs.WaitForFrames 0]) =
    inr Example.frames /\
  exists w' b w'',
    get_image_bundle drv c w =
      (Raise (RuntimeError "Frame didn't arrive within 15000"), c, w') /\
    w_calls w' = w_calls w ++ [Rs.WaitForFrames 0] /\
    w_log w' = w_log w /\ w_pipes w' = w_pipes w /\ w_mem w' = w_mem w /\
    get_image_bundle drv c w' = (Ok b, c, w'').
Proof.
  intros drv c w.
  assert (Rs.wait_for_frames drv (w_calls w) =
            inl "Frame didn't arrive within 15000") as Hf
    by (vm_compute; reflexivity).
  assert (Rs.wait_for_frames drv (w_calls w ++ [Rs.WaitForFrames 0]) =
            inr Example.frames) as Hf2
    by (vm_compute; reflexivity).
  split; [reflexivity|]. split; [reflexivity|]. split; [reflexivity|].
  split; [exact Hf|]. split; [exact Hf2|].
  apply (timeout_keeps_connection drv c w 0 _ Example.frames
           Example.f64_0_001); [reflexivity|reflexivity|reflexivity| |];
    assumption.
Defined.

(** X8: in a returned bundle, [rgb] is an array over the very buffer of the
    driver's aligned color frame, with the samples as delivered and shape
    height x width x 3; and the driver's aligned depth frame still holds its
    raw 16-bit samples: the scaling was done on the [float32] copy that
    [aligned_depth] refers to, not on the frame. *)
Theorem acquisition_keeps_driver_frames drv c w b c' w' :
  get_image_bundle drv c w = (Ok b, c', w') ->
  exists fs,
    Rs.wait_for_frames drv (w_calls w) = inr fs /\
    let al := Rs.align_process drv fs in
    w_mem w' !! Np.base (rgb b) = Some (Np.BufU8 (Rs.vf_data (Rs.fs_color al))) /\
    Np.shape (rgb b) =
      [Rs.vf_height (Rs.fs_color al); Rs.vf_width (Rs.fs_color al); 3%nat] /\
    w_mem w' !! S (Np.base (rgb b)) =
      Some (Np.BufU16 (Rs.vf_data (Rs.fs_depth al))) /\
    Np.base (aligned_depth b) = S (S (Np.base (rgb b))).
Proof.
  intros H.
  destruct (get_image_bundle_ok_inv _ _ _ _ _ _ H)
    as (p & fs & x & Hp & Hs & Hf & Hx).
  rewrite (get_image_bundle_started _ _ _ _ _ Hp Hs Hf), Hx in H.
  inversion H; subst; clear H. exists fs. split; [exact Hf|].
  cbn. split; [apply lookup_first|]. split; [reflexivity|].
  split; [apply lookup_second|reflexivity].
Qed.

Lemma acquisition_keeps_driver_frames_witness :
  let acq := get_image_bundle Example.drv1 Example.cam1 Example.world1 in
  acq = (Ok Example.bundle1, snd (fst acq), snd acq) /\
  w_mem (snd acq) !! 0%nat = Some (Np.BufU8 [10; 20; 30; 40; 50; 60]) /\
  w_mem (snd acq) !! 1%nat = Some (Np.BufU16 [2000; 0]).
Proof.
  intros acq.
  assert (acq = (Ok Example.bundle1, snd (fst acq), snd acq)) as Hacq
    by (vm_compute; reflexivity).
  split; [exact Hacq|].
  destruct (acquisition_keeps_driver_frames Example.drv1 Example.cam1
              Example.world1 Example.bundle1 _ _ Hacq)
    as (fs & Hf & Hrgb & _ & Hraw & _).
  cbn in Hf. injection Hf as <-. split; [exact Hrgb|exact Hraw].
Defined.



(** X10: whatever its outcome, [get_image_bundle] leaves the object, the log
    and the pipelines as they are and keeps every buffer already in memory.
    With no pipeline it calls nothing at all; otherwise its driver calls are
    one wait for frames, followed by one alignment once frames arrived: it
    never enumerates devices and never creates, configures or starts a
    pipeline. *)
Theorem acquisition_effects drv c w r c' w' :
  get_image_bundle drv c w = (r, c', w') ->
  c' = c /\ w_log w' = w_log w /\ w_pipes w' = w_pipes w /\
  w_mem w `prefix_of` w_mem w' /\
  match pipeline c with
  | None => w' = w
  | Some p =>
      w_calls w' = w_calls w ++ [Rs.WaitForFrames p] \/
      w_calls w' = w_calls w ++ [Rs.WaitForFrames p; Rs.AlignProcess]
  end.
Proof.
  intros H.
  destruct (get_image_bundle_frame _ _ _ _ _ _ H) as (Hc & Hl & Hpi & Hm).
  split; [exact Hc|]. split; [exact Hl|]. split; [exact Hpi|].
  split; [exact Hm|].
  destruct (pipeline c) as [p|] eqn:Hp.
  2:{ rewrite (get_image_bundle_no_pipeline _ _ _ Hp) in H. now inversion H. }
  destruct (decide (w_pipes w !! p = Some true)) as [Hs|Hs].
  2:{ rewrite (get_image_bundle_not_started _ _ _ _ Hp Hs) in H.
      inversion H; subst. now left. }
  destruct (Rs.wait_for_frames drv (w_calls w)) as [e|fs] eqn:Hf.
  { rewrite (get_image_bundle_timeout _ _ _ _ _ Hp Hs Hf) in H.
    inversion H; subst. now left. }
  rewrite (get_image_bundle_started _ _ _ _ _ Hp Hs Hf) in H.
  destruct (scale c); inversion H; subst; now right.
Qed.

Lemma acquisition_effects_witness :
  let acq := get_image_bundle Example.drv1 Example.cam1 Example.world1 in
  snd (fst acq) = Example.cam1 /\
  w_log (snd acq) = w_log Example.world1 /\
  w_pipes (snd acq) = w_pipes Example.world1 /\
  w_mem Example.world1 `prefix_of` w_mem (snd acq) /\
  (w_calls (snd acq) = w_calls Example.world1 ++ [Rs.WaitForFrames 0] \/
   w_calls (snd acq) =
     w_calls Example.world1 ++ [Rs.WaitForFrames 0; Rs.AlignProcess]).
Proof.
  intros acq.
  exact (acquisition_effects Example.drv1 Example.cam1 Example.world1
           (fst (fst acq)) (snd (fst acq)) (snd acq) (triple_eta acq)).
Defined.

(** X11: the [depth.squeeze(axis=2)] of [plot_image_bundle] never fails on a
    returned bundle: it undoes the [expand_dims] of [get_image_bundle],
    giving a view of the same data with the height x width shape of the
    aligned depth frame. *)
Theorem squeeze_undoes_expand_dims drv c w b c' w' :
  get_image_bundle drv c w = (Ok b, c', w') ->
  exists fs,
    Rs.wait_for_frames drv (w_calls w) = inr fs /\
    NpMore.squeeze (aligned_depth b) 2 =
      Some {| Np.base := Np.base (aligned_depth b);
              Np.shape :=
                [Rs.vf_height (Rs.fs_depth (Rs.align_process drv fs));
                 Rs.vf_width (Rs.fs_depth (Rs.align_process drv fs))] |}.
Proof.
  intros H.
  destruct (get_image_bundle_ok_inv _ _ _ _ _ _ H)
    as (p & fs & x & Hp & Hs & Hf & Hx).
  rewrite (get_image_bundle_started _ _ _ _ _ Hp Hs Hf), Hx in H.
  inversion H; subst; clear H. exists fs. split; [exact Hf|]. reflexivity.
Qed.

Lemma squeeze_undoes_expand_dims_witness :
  let acq := get_image_bundle Example.drv1 Example.cam1 Example.world1 in
  acq = (Ok Example.bundle1, snd (fst acq), snd acq) /\
  NpMore.squeeze (aligned_depth Example.bundle1) 2 =
    Some {| Np.base := 2; Np.shape := [1; 2]%nat |}.
Proof.
  intros acq.
  assert (acq = (Ok Example.bundle1, snd (fst acq), snd acq)) as Hacq
    by (vm_compute; reflexivity).
  split; [exact Hacq|].
  destruct (squeeze_undoes_expand_dims Example.drv1 Example.cam1
              Example.world1 Example.bundle1 _ _ Hacq) as (fs & Hf & Hsq).
  cbn in Hf. injection Hf as <-. exact Hsq.
Defined.

(** X12: [connect] is the only method that changes the object, writes to the
    log, or creates or starts a pipeline: [get_available_devices],
    [get_image_bundle] and [plot_image_bundle] leave the object, the log and
    the pipelines as they are, whether they return or raise. *)
Theorem only_connect_changes_state drv m c w r c' w' :
  m <> Connect ->
  call_method drv m c w = (r, c', w') ->
  c' = c /\ w_log w' = w_log w /\ w_pipes w' = w_pipes w.
Proof.
  intros Hne H. destruct m; [| contradiction | |]; cbn [call_method] in H.
  - unfold bind in H. rewrite get_available_devices_eq in H. cbn in H.
    inversion H; subst. repeat split.
  - unfold bind in H. destruct (get_image_bundle drv c w) as [[r0 c0] w0] eqn:G.
    apply get_image_bundle_frame in G. destruct G as (-> & Hl & Hpi & Hm).
    destruct r0; inversion H; subst; auto.
  - apply plot_image_bundle_frame in H. destruct H as (-> & Hl & Hpi & _). auto.
Qed.

Lemma only_connect_changes_state_witness :
  let out := call_method (Example.driver_timeout [Example.d405])
               PlotImageBundle Example.cam1 Example.world1 in
  PlotImageBundle <> Connect /\
  snd (fst out) = Example.cam1 /\
  w_log (snd out) = w_log Example.world1 /\
  w_pipes (snd out) = w_pipes Example.world1.
Proof.
  intros out.
  assert (PlotImageBundle <> Connect) as Hne by discriminate.
  split; [exact Hne|].
  exact (only_connect_changes_state (Example.driver_timeout [Example.d405])
           PlotImageBundle Example.cam1 Example.world1 _ _ _ Hne
           (triple_eta out)).
Defined.

(** ** Plotting and the script *)











(** X16: with no device attached the script ends at once with the
    "No RealSense devices found" error, for every number of iterations
    allowed: the enumeration is its only driver call, no pipeline is
    created, nothing is logged and no figure is shown. *)
Theorem main_without_device drv fuel w :
  Rs.query_devices drv (w_calls w) = [] ->
  exists w',
    main drv fuel w =
      (Raise (RuntimeError "No RealSense devices found"), default_camera, w') /\
    w_calls w' = w_calls w ++ [Rs.QueryDevices] /\
    w_pipes w' = w_pipes w /\ w_log w' = w_log w.
Proof.
  intros Hq. unfold main.
  rewrite (bind_raise _ _ _ _ _ _ _ (connect_empty drv default_camera w Hq)).
  eexists. split; [reflexivity|]. repeat split.
Qed.

Lemma main_without_device_witness :
  let drv := Example.driver_with [] in
  Rs.query_devices drv (w_calls empty_world) = [] /\
  exists w',
    main drv 3 empty_world =
      (Raise (RuntimeError "No RealSense devices found"), default_camera, w') /\
    w_calls w' = [Rs.QueryDevices] /\
    w_pipes w' = [] /\ w_log w' = [].
Proof.
  intros drv. split; [reflexivity|].
  exact (main_without_device drv 3 empty_world eq_refl).
Defined.

(** ** The arithmetic of the depth conversion *)

Lemma all_bits_spec bits P : forall acc,
  all_bits bits acc P = true ->
  forall n, acc * 2 ^ Z.of_nat bits <= n < (acc + 1) * 2 ^ Z.of_nat bits ->
  P n = true.
Proof.
  induction bits as [|b IH]; intros acc H n Hn.
  - cbn in Hn. replace n with acc by lia. exact H.
  - cbn [all_bits] in H. apply andb_prop in H. destruct H as [H0 H1].
    rewrite Nat2Z.inj_succ, Z.pow_succ_r in Hn by lia.
    destruct (Z_lt_ge_dec n ((2 * acc + 1) * 2 ^ Z.of_nat b)).
    + apply (IH _ H0). lia.
    + apply (IH _ H1). lia.
Qed.

(** X17: the conversion of the raw depth to [float32] loses nothing: every
    unsigned 16-bit sample is converted to the [float32] that stands for
    exactly that integer, so distinct raw values stay distinct before the
    scaling. *)
Theorem of_u16_exact n :
  0 <= n < 65536 -> f32_to_Z (F32.of_u16 n) = Some n.
Proof.
  intros Hn.
  assert (all_bits 16 0
            (fun k => match f32_to_Z (F32.of_u16 k) with
                      | Some m => Z.eqb m k
                      | None => false
                      end) = true) as Hall by (vm_compute; reflexivity).
  pose proof (all_bits_spec _ _ _ Hall n) as H. cbn beta in H.
  change (2 ^ Z.of_nat 16) with 65536 in H.
  destruct (f32_to_Z (F32.of_u16 n)) as [m|].
  - f_equal. apply Z.eqb_eq, H. lia.
  - discriminate H. lia.
Qed.

Lemma of_u16_exact_witness :
  0 <= 65535 < 65536 /\ f32_to_Z (F32.of_u16 65535) = Some 65535.
Proof. split; [lia|apply (of_u16_exact 65535); lia]. Defined.

(** X18: a raw depth of 0, the driver's mark for a pixel without depth,
    stays 0 after the scaling: for every scale that is finite as a
    [float32], each 0 sample gives a zero, with the sign of the scale. *)
Theorem zero_depth_stays_zero x raw i :
  is_finite (F32.of_f64 x) = true ->
  raw !! i = Some 0 ->
  scaled_once x raw !! i = Some (S754_zero (sign_of (F32.of_f64 x))).
Proof.
  intros Hfin Hi. unfold scaled_once.
  rewrite (lookup_map_Some _ _ _ _ Hi). f_equal.
  destruct (F32.of_f64 x); try discriminate; reflexivity.
Qed.

Lemma zero_depth_stays_zero_witness :
  is_finite (F32.of_f64 Example.f64_0_001) = true /\
  [2000; 0] !! 1%nat = Some 0 /\
  scaled_once Example.f64_0_001 [2000; 0] !! 1%nat = Some (S754_zero false).
Proof.
  split; [reflexivity|]. split; [reflexivity|].
  apply (zero_depth_stays_zero Example.f64_0_001 [2000; 0] 1); reflexivity.
Defined.
